(** * The product listing page: fetch, page state and pagination

    A shallow embedding of [src/app/page.js]: the [fetchProducts] routine,
    the state that [ProductsPage] keeps with [useState], the asynchronous
    [loadProducts] effect, the render policy and the [Pagination]
    component, followed by the properties the specification states about
    them. *)

From Stdlib Require Import ZArith NArith List String Ascii Bool Lia QArith.
From Stdlib Require Import DecimalString DecimalPos DecimalZ.
Import ListNotations.
Local Open Scope Z_scope.
Local Open Scope string_scope.

(** ** The fragment of JavaScript the page relies on *)

Module JS.

Local Open Scope Z_scope.

(** A JavaScript number, an IEEE 754 double: an integer-valued one
    ([Num]), a non-integer one ([Dyadic m k], the double [m / 2^k] with
    [m] odd), an infinity or [NaN].  The two zeros are not told apart:
    the page never prints a zero that could be negative, never divides,
    and both are falsy. *)
Inductive number : Type :=
| Num (z : Z)
| NaN
| Infinity (negative : bool)
| Dyadic (m : Z) (k : positive).

(** The values a page parameter can take: [undefined], a number or a
    string.  A string is a sequence of code units below 256.  A repeated
    query parameter, which reaches the page as an array, is not
    modelled. *)
Inductive value : Type :=
| VUndefined
| VNumber (n : number)
| VString (s : string).

(** What a promise settles to; a rejection reason is an [Error], kept by
    its [message]. *)
Inductive settled (A : Type) : Type :=
| Fulfilled (a : A)
| Rejected (message : string).
Arguments Fulfilled {A} a.
Arguments Rejected {A} message.

(** *** Rounding to a double *)

(** The integers from [-2^53] to [2^53] are doubles. *)
Definition safe_integer (z : Z) : bool :=
  (- 9007199254740992 <=? z) && (z <=? 9007199254740992).

(** [floor (log2 (a / d))] for positive [a] and [d]. *)
Definition ilog2 (a d : Z) : Z :=
  let e := Z.log2 a - Z.log2 d in
  let reaches :=
    if 0 <=? e then d * 2 ^ e <=? a else d <=? a * 2 ^ (- e) in
  if reaches then e else e - 1.

(** The double [m * 2^q] in the shape of [number]: an integer, or an odd
    numerator over a power of two. *)
Fixpoint halve (fuel : nat) (m : Z) (k : Z) : number :=
  match fuel with
  | O => Num m
  | S fuel' =>
      if k <=? 0 then Num (m * 2 ^ (- k))
      else if Z.even m then halve fuel' (m / 2) (k - 1)
      else Dyadic m (Z.to_pos k)
  end.

Definition of_dyadic (m q : Z) : number :=
  if m =? 0 then Num 0 else halve 1100 m (- q).

(** The double nearest to the ratio [n / d], ties going to the even
    significand: 53 significant bits, the unit never below [2^-1074],
    infinity from [2^1024] on. *)
Definition round_ratio (n : Z) (d : positive) : number :=
  if n =? 0 then Num 0
  else
    let a := Z.abs n in
    let e := ilog2 a (Z.pos d) in
    let q := Z.max (e - 52) (- 1074) in
    let num := if 0 <=? q then a else a * 2 ^ (- q) in
    let den := if 0 <=? q then Z.pos d * 2 ^ q else Z.pos d in
    let m := num / den in
    let r := num mod den in
    let m' :=
      if 2 * r <? den then m
      else if den <? 2 * r then m + 1
      else if Z.even m then m else m + 1 in
    if (971 <=? q) && (2 ^ (1024 - q) <=? m') then Infinity (n <? 0)
    else of_dyadic (Z.sgn n * m') q.

(** The double nearest to an integer. *)
Definition round_Z (z : Z) : number :=
  if safe_integer z then Num z else round_ratio z 1.

(** The exact value of a finite number, as a ratio. *)
Definition exact (a : number) : option (Z * positive) :=
  match a with
  | Num z => Some (z, 1%positive)
  | Dyadic m k => Some (m, (2 ^ k)%positive)
  | NaN | Infinity _ => None
  end.

Definition is_zero (a : number) : bool :=
  match a with
  | Num z => z =? 0
  | _ => false
  end.

Definition is_negative (a : number) : bool :=
  match a with
  | Num z => z <? 0
  | Dyadic m _ => m <? 0
  | Infinity s => s
  | NaN => false
  end.

Definition neg (a : number) : number :=
  match a with
  | Num z => Num (- z)
  | Dyadic m k => Dyadic (- m) k
  | Infinity s => Infinity (negb s)
  | NaN => NaN
  end.

(** *** Arithmetic and comparison *)

(** [a + b] *)
Definition add (a b : number) : number :=
  match a, b with
  | Num x, Num y => round_Z (x + y)
  | NaN, _ | _, NaN => NaN
  | Infinity s, Infinity t => if Bool.eqb s t then Infinity s else NaN
  | Infinity s, _ | _, Infinity s => Infinity s
  | _, _ =>
      match exact a, exact b with
      | Some (n1, d1), Some (n2, d2) =>
          round_ratio (n1 * Z.pos d2 + n2 * Z.pos d1) (d1 * d2)
      | _, _ => NaN
      end
  end.

(** [a - b] *)
Definition sub (a b : number) : number :=
  match a, b with
  | Num x, Num y => round_Z (x - y)
  | _, _ => add a (neg b)
  end.

(** [a * b] *)
Definition mul (a b : number) : number :=
  match a, b with
  | Num x, Num y => round_Z (x * y)
  | NaN, _ | _, NaN => NaN
  | Infinity s, c | c, Infinity s =>
      if is_zero c then NaN else Infinity (xorb s (is_negative c))
  | _, _ =>
      match exact a, exact b with
      | Some (n1, d1), Some (n2, d2) => round_ratio (n1 * n2) (d1 * d2)
      | _, _ => NaN
      end
  end.

(** [a > b] on numbers: any comparison with [NaN] is false. *)
Definition gt (a b : number) : bool :=
  match a, b with
  | Num x, Num y => (y <? x)%Z
  | NaN, _ | _, NaN => false
  | Infinity s, Infinity t => negb s && t
  | Infinity s, _ => negb s
  | _, Infinity t => t
  | _, _ =>
      match exact a, exact b with
      | Some (n1, d1), Some (n2, d2) => n2 * Z.pos d1 <? n1 * Z.pos d2
      | _, _ => false
      end
  end.

(** *** Numbers to strings *)

(** The decimal numeral of an integer, ["-"] first for a negative
    one. *)
Definition string_of_Z (z : Z) : string :=
  NilZero.string_of_int (Z.to_int z).

Definition number_eqb (a b : number) : bool :=
  match a, b with
  | Num x, Num y => x =? y
  | Dyadic m k, Dyadic n j => (m =? n) && (k =? j)%positive
  | Infinity s, Infinity t => Bool.eqb s t
  | NaN, NaN => true
  | _, _ => false
  end.

(** For positive [a / d], the [p] with [10^(p-1) <= a / d < 10^p]. *)
Definition below_pow10 (a d j : Z) : bool :=
  if 0 <=? j then a <? d * 10 ^ j else a * 10 ^ (- j) <? d.

Fixpoint decimal_exponent (fuel : nat) (a d p : Z) : Z :=
  match fuel with
  | O => p
  | S fuel' =>
      if below_pow10 a d (p - 1) then decimal_exponent fuel' a d (p - 1)
      else if below_pow10 a d p then p
      else decimal_exponent fuel' a d (p + 1)
  end.

(** The ratio [c * 10^j]. *)
Definition scaled (c j : Z) : Z * positive :=
  if 0 <=? j then (c * 10 ^ j, 1%positive) else (c, Z.to_pos (10 ^ (- j))).

(** Among the numerals of [k] digits, the one nearest to the positive
    double [x = a / d] if it reads back as [x]: its digits as an integer
    [s] and its decimal exponent [n], with [s * 10^(n - k)] its value. *)
Definition candidate (x : number) (a d p k : Z) : option (Z * Z) :=
  let (num, den) :=
    if 0 <=? k - p then (a * 10 ^ (k - p), d) else (a, d * 10 ^ (p - k)) in
  let lo := num / den in
  let r := num mod den in
  let reads_back c :=
    let (n, m) := scaled c (p - k) in number_eqb (round_ratio n m) x in
  let pick c := if c =? 10 ^ k then Some (10 ^ (k - 1), p + 1) else Some (c, p) in
  let lo_first :=
    if 2 * r <? den then true
    else if den <? 2 * r then false
    else Z.even lo in
  let first := if lo_first then lo else lo + 1 in
  let second := if lo_first then lo + 1 else lo in
  if (10 ^ (k - 1) <=? first) && reads_back first then pick first
  else if (10 ^ (k - 1) <=? second) && reads_back second then pick second
  else None.

(** The shortest numeral that reads back as [x]. *)
Fixpoint shortest (fuel : nat) (x : number) (a d p k : Z) : Z * Z * Z :=
  match fuel with
  | O => (a / d, p, k)
  | S fuel' =>
      match candidate x a d p k with
      | Some (s, n) => (s, n, k)
      | None => shortest fuel' x a d p (k + 1)
      end
  end.

Definition zeros (n : Z) : string :=
  string_of_list_ascii (repeat "0"%char (Z.to_nat n)).

(** [Number::toString] on a positive double: its shortest numeral, laid
    out plainly for decimal exponents from -5 to 21 and with an exponent
    otherwise. *)
Definition positive_to_string (x : number) (a d : Z) : string :=
  let p := decimal_exponent 400 a d 1 in
  let '(s, n, k) := shortest 17 x a d p 1 in
  let ds := string_of_Z s in
  if (k <=? n) && (n <=? 21) then ds ++ zeros (n - k)
  else if (0 <? n) && (n <=? 21) then
    substring 0 (Z.to_nat n) ds ++ "." ++ substring (Z.to_nat n) (Z.to_nat (k - n)) ds
  else if (- 6 <? n) && (n <=? 0) then "0." ++ zeros (- n) ++ ds
  else
    let e := n - 1 in
    let mantissa :=
      if k =? 1 then ds
      else substring 0 1 ds ++ "." ++ substring 1 (Z.to_nat (k - 1)) ds in
    mantissa ++ "e" ++ (if 0 <=? e then "+" else "-") ++ string_of_Z (Z.abs e).

Definition finite_to_string (n : Z) (d : positive) : string :=
  if n =? 0 then "0"
  else
    let x := round_ratio (Z.abs n) d in
    (if n <? 0 then "-" else "") ++ positive_to_string x (Z.abs n) (Z.pos d).

(** [Number::toString]: on the integers from [-2^53] to [2^53] the
    shortest numeral is the decimal numeral itself. *)
Definition number_to_string (n : number) : string :=
  match n with
  | Num z => if safe_integer z then string_of_Z z else finite_to_string z 1
  | Dyadic m k => finite_to_string m (2 ^ k)
  | Infinity false => "Infinity"
  | Infinity true => "-Infinity"
  | NaN => "NaN"
  end.

Definition ToString (v : value) : string :=
  match v with
  | VUndefined => "undefined"
  | VNumber n => number_to_string n
  | VString s => s
  end.

(** *** Strings to numbers *)

(** White space and line terminators among the code units below 256:
    TAB, LF, VT, FF, CR, SP and NBSP. *)
Definition is_whitespace (c : ascii) : bool :=
  let n := nat_of_ascii c in
  ((9 <=? n) && (n <=? 13) || (n =? 32) || (n =? 160))%nat.

Definition is_digit (c : ascii) : bool :=
  let n := nat_of_ascii c in
  ((48 <=? n) && (n <=? 57))%nat.

Definition digit_value (c : ascii) : Z :=
  Z.of_nat (nat_of_ascii c) - 48.

(** The integer a sequence of decimal digits denotes, most significant
    digit first. *)
Definition digits_value (ds : list ascii) : Z :=
  fold_left (fun acc c => 10 * acc + digit_value c) ds 0.

Fixpoint trim_start (l : list ascii) : list ascii :=
  match l with
  | c :: t => if is_whitespace c then trim_start t else l
  | [] => []
  end.

Definition trim (l : list ascii) : list ascii :=
  rev (trim_start (rev (trim_start l))).

Fixpoint take_digits (l : list ascii) : list ascii :=
  match l with
  | c :: t => if is_digit c then c :: take_digits t else []
  | [] => []
  end.

(** The optional sign in front of a numeral: its factor and what
    follows it. *)
Definition split_sign (l : list ascii) : Z * list ascii :=
  match l with
  | "-"%char :: t => (-1, t)
  | "+"%char :: t => (1, t)
  | _ => (1, l)
  end.

(** [parseInt(s, 10)]: leading white space is skipped, a sign is read,
    then the longest run of decimal digits; without a digit the result
    is [NaN], otherwise the double nearest to the integer read.  What
    follows the digits is ignored.  (For more than 20 significant digits
    the language allows a less exact result; the rounding here is the
    correct one, as the engines do it.) *)
Definition parseInt_string (s : string) : number :=
  let (sign, l) := split_sign (trim_start (list_ascii_of_string s)) in
  match take_digits l with
  | [] => NaN
  | ds => round_Z (sign * digits_value ds)
  end.

Definition parseInt (v : value) : number :=
  parseInt_string (ToString v).

(** The value of a digit in a radix up to 16, if it is one. *)
Definition radix_digit (radix : Z) (c : ascii) : option Z :=
  let n := Z.of_nat (nat_of_ascii c) in
  let v :=
    if (48 <=? n) && (n <=? 57) then n - 48
    else if (97 <=? n) && (n <=? 102) then n - 87
    else if (65 <=? n) && (n <=? 70) then n - 55
    else 16 in
  if v <? radix then Some v else None.

Fixpoint radix_value (radix : Z) (l : list ascii) (acc : Z) : option Z :=
  match l with
  | [] => Some acc
  | c :: t =>
      match radix_digit radix c with
      | Some v => radix_value radix t (radix * acc + v)
      | None => None
      end
  end.

(** [0x], [0o] and [0b] literals; they take no sign. *)
Definition radix_of (c0 c : ascii) : Z :=
  if negb (Ascii.eqb c0 "0") then 0
  else if (Ascii.eqb c "x" || Ascii.eqb c "X")%bool then 16
  else if (Ascii.eqb c "o" || Ascii.eqb c "O")%bool then 8
  else if (Ascii.eqb c "b" || Ascii.eqb c "B")%bool then 2
  else 0.

Definition radix_literal (l : list ascii) : option number :=
  match l with
  | c0 :: c :: ds =>
      let radix := radix_of c0 c in
      if radix =? 0 then None
      else
        match ds, radix_value radix ds 0 with
        | _ :: _, Some v => Some (round_Z v)
        | _, _ => Some NaN
        end
  | _ => None
  end.

(** The exponent part of a decimal literal, which must end the string:
    none, or [e] or [E], an optional sign and at least one digit. *)
Definition exponent_part (l : list ascii) : option Z :=
  match l with
  | [] => Some 0
  | c :: t =>
      if (Ascii.eqb c "e" || Ascii.eqb c "E")%bool then
        let (sign, ds) := split_sign t in
        match ds with
        | [] => None
        | _ => if forallb is_digit ds then Some (sign * digits_value ds) else None
        end
      else None
  end.

(** The double nearest to [sign * v * 10^ex]. *)
Definition round_decimal (sign v ex : Z) : number :=
  if ex =? 0 then round_Z (sign * v)
  else let (n, d) := scaled (sign * v) ex in round_ratio n d.

(** A signed decimal literal: [Infinity], or digits with an optional
    fraction and exponent, at least one digit before or after the
    point. *)
Definition decimal_literal (l : list ascii) : number :=
  let (sign, l1) := split_sign l in
  if list_eq_dec ascii_dec l1 (list_ascii_of_string "Infinity")
  then Infinity (sign <? 0)
  else
    let ip := take_digits l1 in
    let rest := skipn (List.length ip) l1 in
    let (fp, rest') :=
      match rest with
      | "."%char :: t =>
          let fp := take_digits t in (fp, skipn (List.length fp) t)
      | _ => ([], rest)
      end in
    match (ip ++ fp)%list, exponent_part rest' with
    | _ :: _, Some e =>
        round_decimal sign (digits_value (ip ++ fp)) (e - Z.of_nat (List.length fp))
    | _, _ => NaN
    end.

(** [StringToNumber]: white space is trimmed at both ends; the empty
    string is 0; otherwise the string must be one numeric literal. *)
Definition StringToNumber (s : string) : number :=
  match trim (list_ascii_of_string s) with
  | [] => Num 0
  | l =>
      match radix_literal l with
      | Some r => r
      | None => decimal_literal l
      end
  end.

Definition ToNumber (v : value) : number :=
  match v with
  | VUndefined => NaN
  | VNumber n => n
  | VString s => StringToNumber s
  end.

(** [ToBoolean]: [undefined], [0], [NaN] and the empty string are
    falsy. *)
Definition truthy (v : value) : bool :=
  match v with
  | VUndefined => false
  | VNumber (Num z) => negb (z =? 0)%Z
  | VNumber NaN => false
  | VNumber _ => true
  | VString s => negb (String.eqb s "")
  end.

(** [a || b] *)
Definition or_else (a b : value) : value :=
  if truthy a then a else b.

End JS.

Import JS.

(** ** The network, as far as the page sees it *)

Module Http.

Record request : Type := mkRequest
  { method : string;
    url : string }.

(** A product of the remote catalogue. *)
Record product : Type := mkProduct
  { id : Z;
    title : string;
    price : Q;
    category : string;
    images : list string }.

(** A response: its status line and what [res.json()] settles to, the
    parsed product sequence or the rejection of a malformed body.  The
    status is an integer of three digits, and the id of a product is
    taken to be a safe integer: both print as their decimal numeral. *)
Record response : Type := mkResponse
  { status : Z;
    statusText : string;
    json : settled (list product) }.

(** [res.ok]: the status is in the range 200-299. *)
Definition ok (res : response) : bool :=
  ((200 <=? status res) && (status res <=? 299))%Z.

(** The world outside the page: how the backend answers a request at
    present, and the requests sent so far, oldest first. *)
Record network : Type := mkNetwork
  { backend : request -> settled response;
    sent : list request }.

(** [fetch(url)]: a GET request; it is recorded and the backend's answer
    is what the promise settles to. *)
Definition fetch (u : string) (w : network) : settled response * network :=
  let req := {| method := "GET"; url := u |} in
  (backend w req, {| backend := backend w; sent := sent w ++ [req] |}).

End Http.

Import Http.

(** ** The fetcher *)

Module Fetcher.

(** The object [fetchProducts] resolves to. *)
Record result : Type := mkResult
  { products : list product;
    hasMore : bool }.

Definition endpoint : string :=
  "https://next-ecommerce-api.vercel.app/products".

(** The body of the [try] block once [fetch] has settled: a rejected
    [fetch] and a rejected [res.json()] throw their reason, a response
    that is not [ok] throws the status error. *)
Definition fetchProducts_try (res : settled response) : settled result :=
  match res with
  | Rejected m => Rejected m
  | Fulfilled res =>
      if negb (ok res) then
        Rejected ("Failed to fetch products: "
                    ++ string_of_Z (status res) ++ " " ++ statusText res)
      else
        match json res with
        | Rejected m => Rejected m
        | Fulfilled data =>
            Fulfilled {| products := data;
                         hasMore := Nat.eqb (List.length data) 20 |}
        end
  end.

(** The [catch] block: whatever the [try] block threw is thrown again
    under a new message. *)
Definition fetchProducts_catch (r : settled result) : settled result :=
  match r with
  | Fulfilled v => Fulfilled v
  | Rejected m => Rejected ("Error fetching products: " ++ m)
  end.

(** The default of the parameter, [page = 1], applies to [undefined]
    only. *)
Definition page_or_default (page : value) : value :=
  match page with
  | VUndefined => VNumber (Num 1)
  | _ => page
  end.

(** [(page - 1) * 20] *)
Definition skip_of (page : value) : number :=
  mul (sub (ToNumber page) (Num 1)) (Num 20).

(** The template literal handed to [fetch]. *)
Definition products_url (skip : number) : string :=
  endpoint ++ "?skip=" ++ number_to_string skip ++ "&limit=20".

(** [async function fetchProducts(page = 1)] *)
Definition fetchProducts (page : value) (w : network)
  : settled result * network :=
  let page := page_or_default page in
  let skip := skip_of page in
  let (res, w') := fetch (products_url skip) w in
  (fetchProducts_catch (fetchProducts_try res), w').

(** The request [fetchProducts(page)] sends. *)
Definition request_of (page : value) : request :=
  {| method := "GET";
     url := products_url (skip_of (page_or_default page)) |}.

End Fetcher.

Import Fetcher.

(** ** What is rendered *)

Module View.

(** What a slot of the markup holds: nothing (for [null] and [false]), a
    text, or a link wrapping a button. *)
Inductive node : Type :=
| Nothing
| Text (s : string)
| LinkButton (href caption : string).

Record pagination_view : Type := mkPagination
  { prev_slot : node;
    label : string;
    next_slot : node }.

Inductive media : Type :=
| Carousel (pictures : list string)
| Image (src : option string) (alt : string).

(** A cell of the product grid. *)
Record card : Type := mkCard
  { key : Z;
    picture : media;
    heading : string;
    price_tag : Q;
    category_line : string;
    details_href : string }.

Inductive view : Type :=
| SkeletonLoader
| ErrorText (text : string)
| ProductGrid (cards : list card) (pagination : pagination_view).

(** How React shows a value placed between tags: [undefined] leaves no
    text, a number shows as its numeral. *)
Definition child_text (v : value) : string :=
  match v with
  | VUndefined => ""
  | VNumber n => number_to_string n
  | VString s => s
  end.

End View.

Import View.

(** ** The page *)

Module Page.

(** [function Pagination({ currentPage, hasMore })].  [prevPage] is a
    number or [null]; in [prevPage && link] a falsy number would be shown
    as text instead of the link. *)
Definition Pagination (currentPage : value) (hasMore : bool) : pagination_view :=
  let pageNum := parseInt currentPage in
  let prevPage :=
    if gt pageNum (Num 1) then Some (sub pageNum (Num 1)) else None in
  let nextPage := add pageNum (Num 1) in
  {| prev_slot :=
       match prevPage with
       | None => Nothing
       | Some n =>
           if truthy (VNumber n)
           then LinkButton ("/?page=" ++ number_to_string n) "Previous Page"
           else Text (number_to_string n)
       end;
     label := "Page " ++ child_text currentPage ++ " of 10";
     next_slot :=
       if hasMore
       then LinkButton ("/?page=" ++ number_to_string nextPage) "Next Page"
       else Nothing |}.

(** The four [useState] cells of [ProductsPage]; [error] is [null] or a
    string. *)
Record PageState : Type := mkPageState
  { loading : bool;
    products : list product;
    error : option string;
    hasMore : bool }.

(** The arguments of the four [useState] calls. *)
Definition initial_state : PageState :=
  {| loading := true; products := []; error := None; hasMore := true |}.

Definition setLoading (b : bool) (st : PageState) : PageState :=
  {| loading := b; products := products st;
     error := error st; hasMore := hasMore st |}.

Definition setProducts (ps : list product) (st : PageState) : PageState :=
  {| loading := loading st; products := ps;
     error := error st; hasMore := hasMore st |}.

Definition setError (e : option string) (st : PageState) : PageState :=
  {| loading := loading st; products := products st;
     error := e; hasMore := hasMore st |}.

Definition setHasMore (b : bool) (st : PageState) : PageState :=
  {| loading := loading st; products := products st;
     error := error st; hasMore := b |}.

(** [const page = searchParams.page || 1] *)
Definition page_of (searchParams_page : value) : value :=
  or_else searchParams_page (VNumber (Num 1)).

Definition error_message : string :=
  "Failed to load products. Please try again later.".

(** [loadProducts] up to its [await]: the loading flag is raised and the
    fetch is started. *)
Definition loadProducts_begin (st : PageState) : PageState :=
  setLoading true st.

(** [loadProducts] from its [await] on, once [fetchProducts(page)] has
    settled to [r]: the rest of the [try] block or the [catch] block,
    then the [finally] block.  The writes of this stretch take effect
    together, before the next render. *)
Definition loadProducts_resume (page : value) (r : settled result)
    (st : PageState) : PageState :=
  let st1 :=
    match r with
    | Fulfilled r =>
        let fetchedProducts := Fetcher.products r in
        let more := Fetcher.hasMore r in
        let st' :=
          if gt (ToNumber page) (Num 10) || negb more
          then setHasMore false st
          else st in
        setProducts fetchedProducts st'
    | Rejected _ => setError (Some error_message) st
    end in
  setLoading false st1.

(** One whole run of [loadProducts] when nothing else happens between
    the start of the fetch and its settling. *)
Definition loadProducts (page : value) (w : network) (st : PageState)
  : PageState * network :=
  let st0 := loadProducts_begin st in
  let (r, w') := fetchProducts page w in
  (loadProducts_resume page r st0, w').

Definition product_card (p : product) : card :=
  {| key := id p;
     picture :=
       if (1 <? List.length (images p))%nat
       then Carousel (images p)
       else Image (hd_error (images p)) (title p);
     heading := title p;
     price_tag := price p;
     category_line := category p;
     details_href := "/" ++ string_of_Z (id p) |}.

(** [if (error)] on a cell that holds [null] or a string. *)
Definition error_set (e : option string) : bool :=
  match e with
  | None => false
  | Some s => truthy (VString s)
  end.

(** What [ProductsPage] returns for the page parameter and the present
    state. *)
Definition render (page : value) (st : PageState) : view :=
  if loading st then SkeletonLoader
  else if error_set (error st) then
    ErrorText (match error st with Some e => e | None => "" end)
  else
    ProductGrid (map product_card (products st))
                (Pagination page (hasMore st)).

(** *** The mounted component

    The page parameter of the last render, the state cells, the runs of
    [loadProducts] that wait for their fetch, each with the page it was
    started for, and whether the effect has still to run for the last
    render. *)
Record component : Type := mkComponent
  { current : value;
    state : PageState;
    pending : list value;
    effect_due : bool }.

Definition value_eq_dec (a b : value) : {a = b} + {a <> b}.
Proof.
  decide equality.
  - decide equality;
      [apply Z.eq_dec | apply bool_dec | apply Pos.eq_dec | apply Z.eq_dec].
  - apply string_dec.
Defined.

Fixpoint remove_first (p : value) (l : list value) : list value :=
  match l with
  | [] => []
  | q :: t => if value_eq_dec p q then t else q :: remove_first p t
  end.

(** The first render: the state cells hold their initial values and the
    effect is due. *)
Definition mount (searchParams_page : value) : component :=
  {| current := page_of searchParams_page;
     state := initial_state;
     pending := [];
     effect_due := true |}.

(** A render with new search parameters: the state cells are kept, and
    the effect is due again when [page], its only dependency, differs
    from the one of the last render. *)
Definition navigate (searchParams_page : value) (c : component) : component :=
  let page := page_of searchParams_page in
  if value_eq_dec page (current c) then c
  else {| current := page;
          state := state c;
          pending := pending c;
          effect_due := true |}.

(** The effect: [loadProducts()] is called and runs up to its [await]. *)
Definition run_effect (c : component) : component :=
  {| current := current c;
     state := loadProducts_begin (state c);
     pending := pending c ++ [current c];
     effect_due := false |}.

(** The fetch of a waiting run, started for page [p], settles against
    the network [w]; the run goes on from its [await]. *)
Definition settle (p : value) (w : network) (c : component) : component :=
  {| current := current c;
     state := loadProducts_resume p (fst (fetchProducts p w)) (state c);
     pending := remove_first p (pending c);
     effect_due := effect_due c |}.

Inductive step : component -> component -> Prop :=
| step_navigate (sp : value) (c : component) :
    effect_due c = false ->
    page_of sp <> current c ->
    step c (navigate sp c)
| step_effect (c : component) :
    effect_due c = true ->
    step c (run_effect c)
| step_settle (p : value) (w : network) (c : component) :
    In p (pending c) ->
    step c (settle p w c).

Inductive steps : component -> component -> Prop :=
| steps_refl (c : component) : steps c c
| steps_step (c1 c2 c3 : component) :
    steps c1 c2 -> step c2 c3 -> steps c1 c3.

Definition reachable (c : component) : Prop :=
  exists sp, steps (mount sp) c.

(** Mount, or a change of page, followed by the effect, and then by the
    settling of the run it started. *)
Definition open_page (searchParams_page : value) : component :=
  run_effect (mount searchParams_page).

Definition change_page (searchParams_page : value) (c : component)
  : component :=
  run_effect (navigate searchParams_page c).

Definition answer (w : network) (c : component) : component :=
  settle (current c) w c.

End Page.

Import Page.

(** ** Sample networks and products, for the closed instances below *)

Definition sample_product (i : Z) : product :=
  {| id := i; title := "Backpack"; price := 109.95%Q;
     category := "bags"; images := ["https://img.example/1.jpg"] |}.

Definition sample_products (n : nat) : list product :=
  map (fun i => sample_product (Z.of_nat i)) (seq 1 n).

(** A backend that answers every request with the same outcome. *)
Definition answering (out : settled response) : network :=
  {| backend := fun _ => out; sent := [] |}.

Definition offline : network :=
  answering (Rejected "fetch failed").

Definition serving (ps : list product) : network :=
  answering (Fulfilled {| status := 200; statusText := "OK";
                          json := Fulfilled ps |}).

Definition failing : network :=
  answering (Fulfilled {| status := 500;
                          statusText := "Internal Server Error";
                          json := Fulfilled [] |}).

Definition garbled : network :=
  answering (Fulfilled {| status := 200; statusText := "OK";
                          json := Rejected "Unexpected end of JSON input" |}).

(** ** Notions used in the statements *)

Definition exactly_one (P Q R : Prop) : Prop :=
  (P /\ ~ Q /\ ~ R) \/ (~ P /\ Q /\ ~ R) \/ (~ P /\ ~ Q /\ R).

(** The three views of the page, each with the condition it shows. *)
Definition loading_view_active (c : component) : Prop :=
  loading (state c) = true /\
  render (current c) (state c) = SkeletonLoader.

Definition error_view_active (c : component) : Prop :=
  exists e : string,
    error (state c) = Some e /\
    render (current c) (state c) = ErrorText e.

Definition products_view_active (c : component) : Prop :=
  render (current c) (state c) =
    ProductGrid (map product_card (products (state c)))
                (Pagination (current c) (hasMore (state c))).

(** The invariant as the specification words it: of the three
    conditions of the state, [loading] true, the error set and products
    held, exactly one holds in every reachable state. *)
Definition one_condition_holds (st : PageState) : Prop :=
  exactly_one (loading st = true) (error st <> None) (products st <> []).

Definition conditions_exclusive : Prop :=
  forall c : component, reachable c -> one_condition_holds (state c).

(** Entering the loading state as the specification words it: the flag
    is raised, the error is cleared and a run for the current page waits
    for its fetch. *)
Definition enters_loading_cleared (c : component) : Prop :=
  loading (state (run_effect c)) = true /\
  error (state (run_effect c)) = None /\
  pending (run_effect c) = (pending c ++ [current c])%list.

Definition entry_clears_error : Prop :=
  (forall sp : value, enters_loading_cleared (mount sp)) /\
  (forall (c : component) (sp : value),
      reachable c ->
      effect_due c = false ->
      page_of sp <> current c ->
      enters_loading_cleared (navigate sp c)).

(** The characters of a decimal numeral, most significant digit first. *)
Definition uint_chars (d : Decimal.uint) : list ascii :=
  list_ascii_of_string (NilEmpty.string_of_uint d).

Definition not_space (c : ascii) : bool := negb (is_whitespace c).

(** ** Numerals: what is printed is read back *)

Lemma uint_chars_digits (d : Decimal.uint) :
  forallb is_digit (uint_chars d) = true.
Proof.
  unfold uint_chars. induction d; simpl; auto.
Qed.

Lemma take_digits_all (l : list ascii) :
  forallb is_digit l = true -> take_digits l = l.
Proof.
  induction l as [| c t IH]; simpl; [reflexivity|].
  intros H. apply andb_true_iff in H. destruct H as [Hc Ht].
  rewrite Hc, IH by assumption. reflexivity.
Qed.

Lemma of_lu_rev_step (d : Decimal.uint) :
  d <> Decimal.Nil ->
  Unsigned.of_lu (Decimal.rev d) =
    (Unsigned.of_lu (Decimal.rev (Unsigned.tl d))
     + Unsigned.hd d * 10 ^ Unsigned.usize (Unsigned.tl d))%N.
Proof.
  destruct d; [congruence | ..]; intros _;
    unfold Decimal.rev; cbn [Decimal.revapp Unsigned.tl Unsigned.hd];
    rewrite Unsigned.of_lu_revapp; cbn [Unsigned.of_lu]; unfold Decimal.rev;
    ring.
Qed.

Lemma digits_value_acc (d : Decimal.uint) (acc : Z) :
  fold_left (fun a c => 10 * a + digit_value c) (uint_chars d) acc =
    Z.of_N (Unsigned.of_lu (Decimal.rev d))
    + acc * 10 ^ Z.of_N (Unsigned.usize d).
Proof.
  revert acc. unfold uint_chars.
  induction d; intros acc;
    [ simpl; lia | .. ];
    cbn [NilEmpty.string_of_uint list_ascii_of_string fold_left];
    rewrite of_lu_rev_step by discriminate;
    cbn [Unsigned.tl Unsigned.hd Unsigned.usize];
    rewrite IHd;
    rewrite N2Z.inj_add, N2Z.inj_mul, N2Z.inj_pow, N2Z.inj_succ;
    change (Z.of_N 10) with 10;
    rewrite Z.pow_succ_r by apply N2Z.is_nonneg;
    set (X := 10 ^ Z.of_N (Unsigned.usize d));
    set (R := Z.of_N (Unsigned.of_lu (Decimal.rev d)));
    unfold digit_value; simpl Z.of_nat; simpl Z.of_N; ring.
Qed.

Lemma digits_value_uint (d : Decimal.uint) :
  digits_value (uint_chars d) = Z.of_uint d.
Proof.
  unfold digits_value. rewrite digits_value_acc.
  unfold Z.of_uint. rewrite Unsigned.of_uint_alt. lia.
Qed.

Lemma uint_chars_nonempty (d : Decimal.uint) :
  d <> Decimal.Nil -> uint_chars d <> [].
Proof. destruct d; [congruence | ..]; discriminate. Qed.

(** A digit is neither white space nor a sign. *)
Lemma digit_not_space (c : ascii) :
  is_digit c = true -> is_whitespace c = false.
Proof.
  unfold is_digit, is_whitespace. intros H.
  apply andb_true_iff in H. destruct H as [H1 H2].
  apply Nat.leb_le in H1. apply Nat.leb_le in H2.
  repeat match goal with
         | |- context [(?a <=? ?b)%nat] => destruct (Nat.leb_spec a b)
         | |- context [(?a =? ?b)%nat] => destruct (Nat.eqb_spec a b)
         end; simpl; try reflexivity; lia.
Qed.

Lemma digits_not_space (l : list ascii) :
  forallb is_digit l = true -> forallb not_space l = true.
Proof.
  rewrite !forallb_forall. intros H c Hc. unfold not_space.
  rewrite (digit_not_space c (H c Hc)). reflexivity.
Qed.

Lemma trim_start_not_space (l : list ascii) :
  forallb not_space l = true -> trim_start l = l.
Proof.
  destruct l as [| c t]; [reflexivity|]. simpl. intros H.
  apply andb_true_iff in H. destruct H as [Hc _].
  unfold not_space in Hc. apply negb_true_iff in Hc.
  rewrite Hc. reflexivity.
Qed.

Lemma forallb_rev {A : Type} (f : A -> bool) (l : list A) :
  forallb f l = true -> forallb f (rev l) = true.
Proof.
  rewrite !forallb_forall. intros H x Hx. apply H, in_rev, Hx.
Qed.

Lemma trim_not_space (l : list ascii) :
  forallb not_space l = true -> trim l = l.
Proof.
  intros H. unfold trim.
  rewrite (trim_start_not_space l H).
  rewrite (trim_start_not_space (rev l) (forallb_rev _ _ H)).
  apply rev_involutive.
Qed.

Lemma split_sign_digits (l : list ascii) :
  forallb is_digit l = true -> split_sign l = (1, l).
Proof.
  destruct l as [| c t]; [reflexivity|]. simpl. intros H.
  apply andb_true_iff in H. destruct H as [Hc _].
  destruct c as [[] [] [] [] [] [] [] []]; try reflexivity; discriminate Hc.
Qed.

Lemma string_of_uint_nonnil (d : Decimal.uint) :
  d <> Decimal.Nil ->
  list_ascii_of_string (NilZero.string_of_uint d) = uint_chars d.
Proof. destruct d; [congruence | ..]; reflexivity. Qed.

(** The characters of the numeral of a positive number, and their
    value. *)
Lemma positive_numeral (p : positive) :
  let l := uint_chars (Pos.to_uint p) in
  l <> [] /\ forallb is_digit l = true /\ digits_value l = Z.pos p.
Proof.
  cbv zeta. split; [|split].
  - apply uint_chars_nonempty, Unsigned.to_uint_nonnil.
  - apply uint_chars_digits.
  - rewrite digits_value_uint. unfold Z.of_uint.
    rewrite Unsigned.of_to. reflexivity.
Qed.

(** *** Safe integers *)

Lemma safe_integer_spec (z : Z) :
  safe_integer z = true <->
  - 9007199254740992 <= z <= 9007199254740992.
Proof.
  unfold safe_integer. rewrite andb_true_iff, !Z.leb_le. reflexivity.
Qed.

(** On the safe integers nothing is rounded and the numeral is the
    decimal one. *)
Lemma round_Z_safe (z : Z) :
  - 9007199254740992 <= z <= 9007199254740992 ->
  round_Z z = Num z.
Proof.
  intros H. unfold round_Z.
  rewrite (proj2 (safe_integer_spec z) H). reflexivity.
Qed.

Lemma number_to_string_safe (z : Z) :
  - 9007199254740992 <= z <= 9007199254740992 ->
  number_to_string (Num z) = string_of_Z z.
Proof.
  intros H. unfold number_to_string.
  rewrite (proj2 (safe_integer_spec z) H). reflexivity.
Qed.

(** The numbers as the engine reads and prints them. *)
Example numbers_read_and_printed :
  map (fun s => number_to_string (StringToNumber s))
      [""; " 12 "; "0x1F"; "-0x1F"; "1e3"; ".5"; "5."; "1e"; "12px";
       "0.000001"; "1e-7"; "1e21"; "123456789012345678901234567890";
       "9007199254740993"; "1e400"; "-Infinity"] =
    ["0"; "12"; "31"; "NaN"; "1000"; "0.5"; "5"; "NaN"; "NaN";
     "0.000001"; "1e-7"; "1e+21"; "1.2345678901234568e+29";
     "9007199254740992"; "Infinity"; "-Infinity"] /\
  map (fun s => number_to_string (parseInt_string s))
      ["  42abc"; "-7.9"; "0x1F"; "1e3"; "abc"; ""; "9007199254740993"] =
    ["42"; "-7"; "0"; "1"; "NaN"; "NaN"; "9007199254740992"] /\
  number_to_string
    (mul (sub (StringToNumber "1.1") (Num 1)) (Num 20)) =
    "2.0000000000000018".
Proof. repeat split; vm_compute; reflexivity. Qed.

Lemma digit_no_radix_mark (c0 c : ascii) :
  is_digit c = true -> radix_of c0 c = 0.
Proof.
  intros H. unfold radix_of.
  destruct (negb (Ascii.eqb c0 "0")); [reflexivity|].
  destruct c as [[] [] [] [] [] [] [] []]; try reflexivity; discriminate H.
Qed.

Lemma radix_literal_digits (l : list ascii) :
  forallb is_digit l = true -> radix_literal l = None.
Proof.
  destruct l as [| c0 [| c t]]; try reflexivity.
  cbn [forallb]. intros H.
  apply andb_true_iff in H. destruct H as [_ H].
  apply andb_true_iff in H. destruct H as [Hc _].
  unfold radix_literal. rewrite (digit_no_radix_mark c0 c Hc). reflexivity.
Qed.

(** A run of digits is a decimal literal, with the value of its
    digits. *)
Lemma decimal_literal_digits (sign : Z) (l l1 : list ascii) :
  split_sign l = (sign, l1) ->
  l1 <> [] ->
  forallb is_digit l1 = true ->
  decimal_literal l = round_Z (sign * digits_value l1).
Proof.
  intros Hsign Hne Hdig. unfold decimal_literal. rewrite Hsign.
  destruct (list_eq_dec ascii_dec l1 (list_ascii_of_string "Infinity"))
    as [E | _].
  - rewrite E in Hdig. discriminate Hdig.
  - cbv zeta. rewrite (take_digits_all l1 Hdig), skipn_all.
    rewrite app_nil_r. cbn [exponent_part List.length Z.of_nat Z.sub].
    destruct l1 as [| c t]; [congruence|].
    unfold round_decimal. reflexivity.
Qed.

(** [parseInt] reads the numeral of a safe integer back as that
    integer. *)
Lemma parseInt_numeral (z : Z) :
  - 9007199254740992 <= z <= 9007199254740992 ->
  parseInt_string (string_of_Z z) = Num z.
Proof.
  intros Hsafe. rewrite <- (round_Z_safe z Hsafe).
  unfold parseInt_string, string_of_Z.
  destruct z as [| p | p]; [reflexivity | |];
    destruct (positive_numeral p) as (Hne & Hdig & Hval);
    cbn [Z.to_int NilZero.string_of_int list_ascii_of_string];
    rewrite string_of_uint_nonnil by apply Unsigned.to_uint_nonnil.
  - rewrite trim_start_not_space by (apply digits_not_space, Hdig).
    rewrite split_sign_digits, take_digits_all by exact Hdig.
    rewrite <- Hval.
    destruct (uint_chars (Pos.to_uint p)); [congruence|].
    f_equal; lia.
  - cbn [trim_start]. change (is_whitespace "-") with false.
    cbn [split_sign]. rewrite take_digits_all by exact Hdig.
    change (Z.neg p) with (- Z.pos p). rewrite <- Hval.
    destruct (uint_chars (Pos.to_uint p)); [congruence|].
    f_equal; lia.
Qed.

(** So does the conversion of a string to a number. *)
Lemma StringToNumber_numeral (z : Z) :
  - 9007199254740992 <= z <= 9007199254740992 ->
  StringToNumber (string_of_Z z) = Num z.
Proof.
  intros Hsafe. rewrite <- (round_Z_safe z Hsafe).
  unfold StringToNumber, string_of_Z.
  destruct z as [| p | p]; [reflexivity | |];
    destruct (positive_numeral p) as (Hne & Hdig & Hval);
    cbn [Z.to_int NilZero.string_of_int list_ascii_of_string];
    rewrite string_of_uint_nonnil by apply Unsigned.to_uint_nonnil.
  - rewrite trim_not_space by (apply digits_not_space, Hdig).
    destruct (uint_chars (Pos.to_uint p)) as [| c t] eqn:E; [congruence|].
    rewrite radix_literal_digits by exact Hdig.
    rewrite (decimal_literal_digits 1 (c :: t) (c :: t)
               (split_sign_digits _ Hdig) Hne Hdig), Hval.
    f_equal; lia.
  - rewrite trim_not_space
      by (cbn [forallb]; rewrite digits_not_space by exact Hdig; reflexivity).
    destruct (uint_chars (Pos.to_uint p)) as [| c t] eqn:E; [congruence|].
    assert (Hr : radix_literal ("-"%char :: c :: t) = None)
      by (destruct t; reflexivity).
    rewrite Hr.
    rewrite (decimal_literal_digits (-1) ("-"%char :: c :: t) (c :: t)
               eq_refl Hne Hdig), Hval.
    f_equal; lia.
Qed.

(** The page a pagination link carries is the page it names: for a safe
    integer [n] the parameter of [/?page={n}] has the number [n] and
    parses to [n]. *)
Lemma link_parameter_reads_back (n : Z) :
  - 9007199254740992 <= n <= 9007199254740992 ->
  ToNumber (VString (string_of_Z n)) = Num n /\
  parseInt (VString (string_of_Z n)) = Num n.
Proof.
  intros H.
  split; [apply StringToNumber_numeral | apply parseInt_numeral]; exact H.
Qed.

(** ** The fetcher *)

Section FetcherFacts.

Variable page : value.
Variable w : network.

Lemma fetchProducts_unfold :
  fetchProducts page w =
    (fetchProducts_catch (fetchProducts_try (backend w (request_of page))),
     {| backend := backend w; sent := (sent w ++ [request_of page])%list |}).
Proof. reflexivity. Qed.

Lemma fetchProducts_result :
  fst (fetchProducts page w) =
    fetchProducts_catch (fetchProducts_try (backend w (request_of page))).
Proof. reflexivity. Qed.

Lemma fetchProducts_sent :
  sent (snd (fetchProducts page w)) = (sent w ++ [request_of page])%list.
Proof. reflexivity. Qed.

(** The backend is not changed by a fetch. *)
Lemma fetchProducts_backend :
  backend (snd (fetchProducts page w)) = backend w.
Proof. reflexivity. Qed.

End FetcherFacts.

(** A page whose number is [p] is not [undefined], and while
    [(p - 1) * 20] is a safe integer its offset is exactly that. *)
Lemma skip_of_number (page : value) (p : Z) :
  ToNumber page = Num p ->
  - 9007199254740992 <= (p - 1) * 20 <= 9007199254740992 ->
  skip_of (page_or_default page) = Num ((p - 1) * 20).
Proof.
  intros Hp Hsafe.
  assert (Hskip : skip_of page = Num ((p - 1) * 20)).
  { unfold skip_of. rewrite Hp. cbn [sub].
    rewrite round_Z_safe by lia. cbn [mul].
    apply round_Z_safe, Hsafe. }
  destruct page as [| n | s]; [discriminate Hp | exact Hskip | exact Hskip].
Qed.

(** The numeral in the URL reads back as the offset. *)
Lemma string_of_Z_reads_back (z : Z) :
  option_map Z.of_int (NilZero.int_of_string (string_of_Z z)) = Some z.
Proof.
  unfold string_of_Z.
  rewrite NilZero.isi.
  - simpl. now rewrite DecimalZ.of_to.
  - destruct z; simpl; try discriminate.
    intros [= H]. now apply (DecimalPos.Unsigned.to_uint_nonnil p).
  - destruct z; simpl; try discriminate.
    intros [= H]. now apply (DecimalPos.Unsigned.to_uint_nonnil p).
Qed.



(** Beyond the safe integers the offset is the rounded one: the page
    parameter 9007199254740993 converts to 2^53, and the product of
    2^53 - 1 and 20 is rounded to a double whose numeral is printed. *)
Example offset_beyond_safe_integers :
  ToNumber (VString "9007199254740993") = Num 9007199254740992 /\
  url (request_of (VString "9007199254740993")) =
    "https://next-ecommerce-api.vercel.app/products?skip=180143985094819800&limit=20".
Proof. split; vm_compute; reflexivity. Qed.

(** A page parameter with a fraction is a number too. *)
Example offset_of_fraction :
  url (request_of (VString "1.5")) =
    "https://next-ecommerce-api.vercel.app/products?skip=10&limit=20" /\
  gt (ToNumber (VString "11.5")) (Num 10) = true.
Proof. split; vm_compute; reflexivity. Qed.

(** A response that is [ok] and whose body parses makes [fetchProducts]
    resolve, whatever the length of the body. *)
Lemma fetchProducts_fulfilled (page : value) (w : network)
    (res : response) (data : list product) :
  backend w (request_of page) = Fulfilled res ->
  ok res = true ->
  json res = Fulfilled data ->
  fst (fetchProducts page w) =
    Fulfilled {| Fetcher.products := data;
                 Fetcher.hasMore := Nat.eqb (List.length data) 20 |}.
Proof.
  intros Hres Hok Hjson.
  rewrite fetchProducts_result, Hres. unfold fetchProducts_try.
  rewrite Hok, Hjson. reflexivity.
Qed.

(** C2.  On a successful response whose body is a product sequence of
    length [n] with [0 <= n <= 20], [fetchProducts] resolves to the object
    whose [products] is that sequence and whose [hasMore] is true exactly
    when [n = 20]: it is computed from the length of the body and from
    nothing else in the response. *)
Theorem fetchProducts_success (page : value) (w : network)
    (res : response) (data : list product) (n : nat) :
  backend w (request_of page) = Fulfilled res ->
  ok res = true ->
  json res = Fulfilled data ->
  List.length data = n ->
  (0 <= n <= 20)%nat ->
  exists r : result,
    fst (fetchProducts page w) = Fulfilled r /\
    Fetcher.products r = data /\
    Fetcher.hasMore r = Nat.eqb (List.length data) 20 /\
    (Fetcher.hasMore r = true <-> n = 20%nat).
Proof.
  intros Hres Hok Hjson Hlen _.
  eexists. split; [apply (fetchProducts_fulfilled page w res data); assumption|].
  simpl. repeat split; subst n.
  - apply Nat.eqb_eq.
  - apply Nat.eqb_eq.
Qed.

Lemma fetchProducts_success_witness :
  exists r : result,
    fst (fetchProducts (VString "2") (serving (sample_products 20)))
      = Fulfilled r /\
    Fetcher.products r = sample_products 20 /\
    Fetcher.hasMore r = Nat.eqb (List.length (sample_products 20)) 20 /\
    (Fetcher.hasMore r = true <-> 20%nat = 20%nat).
Proof.
  apply (fetchProducts_success (VString "2") (serving (sample_products 20))
           {| status := 200; statusText := "OK";
              json := Fulfilled (sample_products 20) |});
    [reflexivity | reflexivity | reflexivity | reflexivity | lia].
Defined.

(** C8.  [fetchProducts] does not resolve when the fetch fails.  For a
    response whose status is not a success status it throws an error
    whose message carries the status code and the status text; for a
    transport failure and for a body that does not parse it throws an
    error whose message wraps the message of the cause. *)
Theorem fetchProducts_failure (page : value) (w : network) :
  (forall res : response,
      backend w (request_of page) = Fulfilled res ->
      ok res = false ->
      fst (fetchProducts page w) =
        Rejected ("Error fetching products: Failed to fetch products: "
                    ++ string_of_Z (status res) ++ " " ++ statusText res)) /\
  (forall cause : string,
      backend w (request_of page) = Rejected cause ->
      fst (fetchProducts page w) =
        Rejected ("Error fetching products: " ++ cause)) /\
  (forall (res : response) (cause : string),
      backend w (request_of page) = Fulfilled res ->
      ok res = true ->
      json res = Rejected cause ->
      fst (fetchProducts page w) =
        Rejected ("Error fetching products: " ++ cause)).
Proof.
  repeat split.
  - intros res Hres Hok.
    rewrite fetchProducts_result, Hres. unfold fetchProducts_try.
    rewrite Hok. reflexivity.
  - intros cause Hres.
    rewrite fetchProducts_result, Hres. reflexivity.
  - intros res cause Hres Hok Hjson.
    rewrite fetchProducts_result, Hres. unfold fetchProducts_try.
    rewrite Hok, Hjson. reflexivity.
Qed.

Lemma fetchProducts_failure_witness :
  fst (fetchProducts (VString "3") failing) =
    Rejected "Error fetching products: Failed to fetch products: 500 Internal Server Error" /\
  fst (fetchProducts (VString "3") offline) =
    Rejected "Error fetching products: fetch failed" /\
  fst (fetchProducts (VString "3") garbled) =
    Rejected "Error fetching products: Unexpected end of JSON input".
Proof.
  split; [|split].
  - apply (proj1 (fetchProducts_failure (VString "3") failing)
             {| status := 500; statusText := "Internal Server Error";
                json := Fulfilled [] |});
      reflexivity.
  - apply (proj1 (proj2 (fetchProducts_failure (VString "3") offline))
             "fetch failed");
      reflexivity.
  - apply (proj2 (proj2 (fetchProducts_failure (VString "3") garbled))
             {| status := 200; statusText := "OK";
                json := Rejected "Unexpected end of JSON input" |}
             "Unexpected end of JSON input");
      reflexivity.
Defined.

(** C9.  The result of [fetchProducts] is a function of the page and of
    the backend's answer to the request for that page: two fetches of the
    same page, at any two moments at which the backend answers that
    request alike, settle to the same outcome, in particular to the same
    [{products, hasMore}]. *)
Theorem fetchProducts_deterministic (page : value) (w1 w2 : network) :
  backend w1 (request_of page) = backend w2 (request_of page) ->
  fst (fetchProducts page w1) = fst (fetchProducts page w2) /\
  fst (fetchProducts page (snd (fetchProducts page w1))) =
    fst (fetchProducts page w1).
Proof.
  intros Hsame. split.
  - rewrite !fetchProducts_result, Hsame. reflexivity.
  - rewrite !fetchProducts_result, fetchProducts_backend. reflexivity.
Qed.

Lemma fetchProducts_deterministic_witness :
  fst (fetchProducts (VString "2") (serving (sample_products 20))) =
    fst (fetchProducts (VString "2") (serving (sample_products 20))) /\
  fst (fetchProducts (VString "2")
         (snd (fetchProducts (VString "2") (serving (sample_products 20))))) =
    fst (fetchProducts (VString "2") (serving (sample_products 20))).
Proof.
  apply (fetchProducts_deterministic (VString "2")); reflexivity.
Defined.

(** ** The page controller *)

(** *** What one run of [loadProducts] writes *)

Section LoadProductsFacts.

Variable st : PageState.

Lemma begin_loading : loading (loadProducts_begin st) = true.
Proof. reflexivity. Qed.

Lemma begin_error : error (loadProducts_begin st) = error st.
Proof. reflexivity. Qed.

Lemma begin_hasMore : hasMore (loadProducts_begin st) = hasMore st.
Proof. reflexivity. Qed.

Lemma begin_products : products (loadProducts_begin st) = products st.
Proof. reflexivity. Qed.

Lemma resume_loading (page : value) (r : settled result) :
  loading (loadProducts_resume page r st) = false.
Proof. destruct r; reflexivity. Qed.

Lemma resume_fulfilled_hasMore (page : value) (r : result) :
  hasMore (loadProducts_resume page (Fulfilled r) st) =
    if gt (ToNumber page) (Num 10) || negb (Fetcher.hasMore r)
    then false
    else hasMore st.
Proof.
  unfold loadProducts_resume.
  destruct (gt (ToNumber page) (Num 10) || negb (Fetcher.hasMore r));
    reflexivity.
Qed.

Lemma resume_fulfilled_products (page : value) (r : result) :
  products (loadProducts_resume page (Fulfilled r) st) = Fetcher.products r.
Proof.
  unfold loadProducts_resume.
  destruct (gt (ToNumber page) (Num 10) || negb (Fetcher.hasMore r));
    reflexivity.
Qed.

Lemma resume_fulfilled_error (page : value) (r : result) :
  error (loadProducts_resume page (Fulfilled r) st) = error st.
Proof.
  unfold loadProducts_resume.
  destruct (gt (ToNumber page) (Num 10) || negb (Fetcher.hasMore r));
    reflexivity.
Qed.

Lemma resume_rejected (page : value) (m : string) :
  loadProducts_resume page (Rejected m) st =
    {| loading := false; products := products st;
       error := Some error_message; hasMore := hasMore st |}.
Proof. reflexivity. Qed.

(** No run of [loadProducts] turns [hasMore] on. *)
Lemma resume_hasMore_falls (page : value) (r : settled result) :
  hasMore st = false ->
  hasMore (loadProducts_resume page r st) = false.
Proof.
  intros Hst. destruct r as [r | m].
  - rewrite resume_fulfilled_hasMore, Hst.
    destruct (gt (ToNumber page) (Num 10) || negb (Fetcher.hasMore r));
      reflexivity.
  - rewrite resume_rejected. exact Hst.
Qed.

(** The error cell is only ever written with the fixed message. *)
Lemma resume_error_values (page : value) (r : settled result) :
  error (loadProducts_resume page r st) = error st \/
  error (loadProducts_resume page r st) = Some error_message.
Proof.
  destruct r as [r | m].
  - left. apply resume_fulfilled_error.
  - right. reflexivity.
Qed.

End LoadProductsFacts.

(** C3.  After a successful fetch for a page whose number exceeds 10 the
    [hasMore] state is false, whatever [hasMore] the fetcher reported;
    for a page number of at most 10 and a fetcher that reports more data,
    a [hasMore] state that was true stays true. *)
Theorem loadProducts_page_limit (page : value) (n : Z) (r : result)
    (st : PageState) :
  ToNumber page = Num n ->
  (n > 10 ->
   hasMore (loadProducts_resume page (Fulfilled r) st) = false) /\
  (n <= 10 ->
   Fetcher.hasMore r = true ->
   hasMore st = true ->
   hasMore (loadProducts_resume page (Fulfilled r) st) = true).
Proof.
  intros Hn. rewrite resume_fulfilled_hasMore, Hn. simpl. split.
  - intros Hgt. destruct (Z.ltb_spec 10 n) as [_ | Hle]; [reflexivity | lia].
  - intros Hle Hmore Hst. rewrite Hmore, Hst.
    destruct (Z.ltb_spec 10 n) as [Hgt | _]; [lia | reflexivity].
Qed.

Lemma loadProducts_page_limit_witness :
  hasMore (loadProducts_resume (VString "11")
             (Fulfilled {| Fetcher.products := sample_products 20;
                           Fetcher.hasMore := true |})
             initial_state) = false /\
  hasMore (loadProducts_resume (VString "10")
             (Fulfilled {| Fetcher.products := sample_products 20;
                           Fetcher.hasMore := true |})
             initial_state) = true.
Proof.
  split.
  - apply (proj1 (loadProducts_page_limit (VString "11") 11
                    {| Fetcher.products := sample_products 20;
                       Fetcher.hasMore := true |}
                    initial_state eq_refl)).
    lia.
  - apply (proj2 (loadProducts_page_limit (VString "10") 10
                    {| Fetcher.products := sample_products 20;
                       Fetcher.hasMore := true |}
                    initial_state eq_refl));
      [lia | reflexivity | reflexivity].
Defined.

(** C4.  When the fetch of a waiting run fails, in either way, the run
    writes the fixed message into the error cell, whatever the message
    of the failure was, turns [loading] off and leaves [products] as it
    was; what is rendered next is the error text and nothing else. *)
Theorem loadProducts_failure (c : component) (p : value) (w : network)
    (m : string) :
  fst (fetchProducts p w) = Rejected m ->
  error (state (settle p w c)) =
    Some "Failed to load products. Please try again later." /\
  loading (state (settle p w c)) = false /\
  products (state (settle p w c)) = products (state c) /\
  render (current (settle p w c)) (state (settle p w c)) =
    ErrorText "Failed to load products. Please try again later.".
Proof.
  intros Hfail. unfold settle. cbn [state current].
  rewrite Hfail, resume_rejected.
  repeat split.
Qed.


Lemma loadProducts_failure_witness :
  let c := change_page VUndefined
             (answer (serving (sample_products 5))
                (open_page (VString "2"))) in
  products (state c) = sample_products 5 /\
  error (state (settle (VNumber (Num 1)) failing c)) =
    Some "Failed to load products. Please try again later." /\
  loading (state (settle (VNumber (Num 1)) failing c)) = false /\
  products (state (settle (VNumber (Num 1)) failing c)) = products (state c) /\
  render (current (settle (VNumber (Num 1)) failing c))
         (state (settle (VNumber (Num 1)) failing c)) =
    ErrorText "Failed to load products. Please try again later.".
Proof.
  split; [reflexivity|].
  apply (loadProducts_failure
           (change_page VUndefined
              (answer (serving (sample_products 5))
                 (open_page (VString "2"))))
           (VNumber (Num 1)) failing
           "Error fetching products: Failed to fetch products: 500 Internal Server Error").
  reflexivity.
Defined.

(** *** The mounted component *)

Lemma reachable_mount (sp : value) : reachable (mount sp).
Proof. exists sp. apply steps_refl. Qed.

Lemma reachable_step (c c' : component) :
  reachable c -> step c c' -> reachable c'.
Proof. intros [sp H] Hs. exists sp. eapply steps_step; eauto. Qed.

Lemma reachable_open_page (sp : value) : reachable (open_page sp).
Proof.
  eapply reachable_step; [apply reachable_mount|].
  apply step_effect. reflexivity.
Qed.

Lemma navigate_changed (sp : value) (c : component) :
  page_of sp <> current c ->
  navigate sp c =
    {| current := page_of sp;
       state := state c;
       pending := pending c;
       effect_due := true |}.
Proof.
  intros Hneq. unfold navigate.
  destruct (value_eq_dec (page_of sp) (current c)); [contradiction | reflexivity].
Qed.

Lemma reachable_change_page (sp : value) (c : component) :
  reachable c ->
  effect_due c = false ->
  page_of sp <> current c ->
  reachable (change_page sp c).
Proof.
  intros Hreach Hdue Hneq. unfold change_page.
  apply (reachable_step (navigate sp c)).
  - apply (reachable_step c); [exact Hreach|].
    apply step_navigate; assumption.
  - apply step_effect. rewrite navigate_changed by assumption. reflexivity.
Qed.

Lemma reachable_answer (w : network) (c : component) :
  reachable c ->
  In (current c) (pending c) ->
  reachable (answer w c).
Proof.
  intros Hreach Hin. apply (reachable_step c); [exact Hreach|].
  unfold answer. apply (step_settle (current c) w c). exact Hin.
Qed.

(** A step either leaves the error cell alone or writes the fixed
    message. *)
Lemma step_error (c c' : component) :
  step c c' ->
  error (state c') = error (state c) \/
  error (state c') = Some error_message.
Proof.
  intros [sp c0 Hdue Hneq | c0 Hdue | p w c0 Hin].
  - left. rewrite navigate_changed by assumption. reflexivity.
  - left. reflexivity.
  - unfold settle. cbn [state]. apply resume_error_values.
Qed.

(** In a reachable state the error cell holds [null] or the fixed
    message. *)
Lemma reachable_error (c : component) :
  reachable c ->
  error (state c) = None \/ error (state c) = Some error_message.
Proof.
  intros [sp H].
  remember (mount sp) as c0 eqn:E.
  induction H as [c | c1 c2 c3 H12 IH H23].
  - subst c. left. reflexivity.
  - destruct (step_error _ _ H23) as [Hsame | Hmsg].
    + rewrite Hsame. apply IH. exact E.
    + right. exact Hmsg.
Qed.

(** A step never turns [hasMore] on. *)
Lemma step_hasMore (c c' : component) :
  step c c' ->
  hasMore (state c) = false ->
  hasMore (state c') = false.
Proof.
  intros [sp c0 Hdue Hneq | c0 Hdue | p w c0 Hin] Hoff.
  - rewrite navigate_changed by assumption. exact Hoff.
  - exact Hoff.
  - unfold settle. cbn [state]. apply resume_hasMore_falls. exact Hoff.
Qed.

Lemma steps_hasMore (c c' : component) :
  steps c c' ->
  hasMore (state c) = false ->
  hasMore (state c') = false.
Proof.
  induction 1 as [c | c1 c2 c3 H12 IH H23]; intros Hoff.
  - exact Hoff.
  - eapply step_hasMore; [exact H23 | apply IH; exact Hoff].
Qed.

(** The views by the state they are rendered from. *)
Lemma render_loading (page : value) (st : PageState) :
  loading st = true -> render page st = SkeletonLoader.
Proof. intros H. unfold render. rewrite H. reflexivity. Qed.

Lemma render_error (page : value) (st : PageState) :
  loading st = false ->
  error st = Some error_message ->
  render page st = ErrorText error_message.
Proof. intros Hl He. unfold render. rewrite Hl, He. reflexivity. Qed.

Lemma render_products (page : value) (st : PageState) :
  loading st = false ->
  error st = None ->
  render page st =
    ProductGrid (map product_card (products st))
                (Pagination page (hasMore st)).
Proof. intros Hl He. unfold render. rewrite Hl, He. reflexivity. Qed.

(** C5, as the code has it.  On mount and on every change of the page
    number the effect sets [loading] to true and starts a run of the
    fetcher for the new page, which then waits for its fetch; the error
    cell is not written: it is [null] on mount and keeps its value on a
    change of page. *)
Theorem loading_entry (sp : value) :
  (loading (state (open_page sp)) = true /\
   error (state (open_page sp)) = None /\
   pending (open_page sp) = [page_of sp]) /\
  (forall c : component,
      page_of sp <> current c ->
      loading (state (change_page sp c)) = true /\
      error (state (change_page sp c)) = error (state c) /\
      pending (change_page sp c) = (pending c ++ [page_of sp])%list).
Proof.
  split.
  - repeat split.
  - intros c Hneq. unfold change_page.
    rewrite navigate_changed by assumption. repeat split.
Qed.

Lemma loading_entry_witness :
  let c := answer (serving (sample_products 20)) (open_page VUndefined) in
  loading (state (change_page (VString "2") c)) = true /\
  error (state (change_page (VString "2") c)) = error (state c) /\
  pending (change_page (VString "2") c) = (pending c ++ [VString "2"])%list.
Proof.
  apply (proj2 (loading_entry (VString "2"))
           (answer (serving (sample_products 20)) (open_page VUndefined))).
  discriminate.
Defined.

(** C5, as the specification words it, fails: after a failed load of
    page 1 the change to page 2 enters the loading state with the error
    still set. *)
Lemma entry_keeps_error :
  let c := answer offline (open_page VUndefined) in
  reachable c /\
  effect_due c = false /\
  page_of (VString "2") <> current c /\
  loading (state (change_page (VString "2") c)) = true /\
  error (state (change_page (VString "2") c)) = Some error_message /\
  ~ entry_clears_error.
Proof.
  assert (Hreach : reachable (answer offline (open_page VUndefined))).
  { apply reachable_answer; [apply reachable_open_page|].
    simpl. left. reflexivity. }
  assert (Hneq : page_of (VString "2")
                 <> current (answer offline (open_page VUndefined)))
    by discriminate.
  cbv zeta. repeat split; try assumption.
  intros [_ Hnav].
  destruct (Hnav _ (VString "2") Hreach eq_refl Hneq) as (_ & Hnone & _).
  discriminate Hnone.
Qed.

(** C6, as the code has it.  In every reachable state of the page
    exactly one of the three views is the active one, chosen by
    priority: the placeholder when [loading] is true; otherwise the
    error text when the error is set, and it is then the fixed message;
    otherwise the grid of the products held, whether or not there are
    any.  The conditions themselves are not exclusive (see
    [conditions_overlap]). *)
Theorem one_active_view (c : component) :
  reachable c ->
  exactly_one (loading_view_active c)
              (error_view_active c)
              (products_view_active c) /\
  (loading_view_active c <-> loading (state c) = true) /\
  (error_view_active c <->
     loading (state c) = false /\ error (state c) <> None) /\
  (products_view_active c <->
     loading (state c) = false /\ error (state c) = None) /\
  (error (state c) <> None -> error (state c) = Some error_message).
Proof.
  intros Hreach.
  pose proof (reachable_error c Hreach) as Herr.
  assert (Hmsg' : error (state c) <> None ->
                  error (state c) = Some error_message)
    by (destruct Herr as [H | H]; [intros Hn; contradiction | intros _; exact H]).
  unfold exactly_one, loading_view_active, error_view_active,
    products_view_active.
  destruct (loading (state c)) eqn:Hl.
  - pose proof (render_loading (current c) (state c) Hl) as Hr.
    rewrite Hr. split; [|split; [|split; [|split]]]; [| | | |exact Hmsg'].
    + left. split; [split; reflexivity|].
      split; [intros (e & _ & H); discriminate H | intros H; discriminate H].
    + split; [intros _; reflexivity | intros _; split; reflexivity].
    + split; [intros (e & _ & H); discriminate H | intros [H _]; discriminate H].
    + split; [intros H; discriminate H | intros [H _]; discriminate H].
  - destruct Herr as [Hnone | Hmsg].
    + pose proof (render_products (current c) (state c) Hl Hnone) as Hr.
      rewrite Hr. split; [|split; [|split; [|split]]]; [| | | |exact Hmsg'].
      * right. right. split; [intros [H _]; discriminate H|].
        split; [intros (e & H & _); congruence | reflexivity].
      * split; [intros [H _]; discriminate H | intros H; discriminate H].
      * split; [intros (e & H & _); congruence
               | intros [_ H]; exfalso; apply H; exact Hnone].
      * split; [intros _; split; [reflexivity | exact Hnone]
               | intros _; reflexivity].
    + pose proof (render_error (current c) (state c) Hl Hmsg) as Hr.
      rewrite Hr. split; [|split; [|split; [|split]]]; [| | | |exact Hmsg'].
      * right. left. split; [intros [H _]; discriminate H|].
        split; [exists error_message; split; [exact Hmsg | reflexivity]
               | intros H; discriminate H].
      * split; [intros [H _]; discriminate H | intros H; discriminate H].
      * split; [intros _; split; [reflexivity | congruence]
               | intros _; exists error_message;
                 split; [exact Hmsg | reflexivity]].
      * split; [intros H; discriminate H | intros [_ H]; congruence].
Qed.

Lemma one_active_view_witness :
  let c := answer failing
             (change_page VUndefined
                (answer (serving (sample_products 5))
                   (open_page (VString "2")))) in
  exactly_one (loading_view_active c)
              (error_view_active c)
              (products_view_active c) /\
  (loading_view_active c <-> loading (state c) = true) /\
  (error_view_active c <->
     loading (state c) = false /\ error (state c) <> None) /\
  (products_view_active c <->
     loading (state c) = false /\ error (state c) = None) /\
  (error (state c) <> None -> error (state c) = Some error_message).
Proof.
  apply (one_active_view
           (answer failing
              (change_page VUndefined
                 (answer (serving (sample_products 5))
                    (open_page (VString "2")))))).
  apply reachable_answer; [|simpl; left; reflexivity].
  apply reachable_change_page; [|reflexivity|discriminate].
  apply reachable_answer; [|simpl; left; reflexivity].
  apply reachable_open_page.
Defined.

(** C6, as the specification words it, fails.  After a good load of
    page 2, a failed load of page 1 and a change to page 3 the state is
    loading, has the error set and still holds the products of page 2:
    all three conditions hold.  After a load that returned no product,
    none of them holds. *)
Lemma conditions_overlap :
  let c3 := change_page (VString "3")
              (answer failing
                 (change_page VUndefined
                    (answer (serving (sample_products 5))
                       (open_page (VString "2"))))) in
  let c0 := answer (serving []) (open_page VUndefined) in
  (reachable c3 /\
   loading (state c3) = true /\
   error (state c3) <> None /\
   products (state c3) <> []) /\
  (reachable c0 /\
   loading (state c0) = false /\
   error (state c0) = None /\
   products (state c0) = []) /\
  ~ conditions_exclusive.
Proof.
  assert (H3 : reachable
                 (change_page (VString "3")
                    (answer failing
                       (change_page VUndefined
                          (answer (serving (sample_products 5))
                             (open_page (VString "2"))))))).
  { apply reachable_change_page; [|reflexivity|discriminate].
    apply reachable_answer; [|simpl; left; reflexivity].
    apply reachable_change_page; [|reflexivity|discriminate].
    apply reachable_answer; [|simpl; left; reflexivity].
    apply reachable_open_page. }
  assert (H0 : reachable (answer (serving []) (open_page VUndefined))).
  { apply reachable_answer; [apply reachable_open_page|].
    simpl. left. reflexivity. }
  cbv zeta. split; [|split].
  - split; [exact H3|]. repeat split; discriminate.
  - split; [exact H0|]. repeat split.
  - intros Hall. specialize (Hall _ H0).
    destruct Hall as [(Hl & _) | [(_ & He & _) | (_ & _ & Hp)]].
    + discriminate Hl.
    + apply He. reflexivity.
    + apply Hp. reflexivity.
Qed.

(** The conditions themselves may hold together: after a good load of
    page 2 and a failed load of page 1 the error is set while the
    products of page 2 are still held; only the error text is shown. *)
Example stale_products_under_error :
  let c := answer failing
             (change_page VUndefined
                (answer (serving (sample_products 5))
                   (open_page (VString "2")))) in
  error (state c) = Some error_message /\
  products (state c) = sample_products 5 /\
  render (current c) (state c) = ErrorText error_message.
Proof. repeat split. Qed.



(** Beyond the safe integers the links are the rounded neighbours: the
    page 9007199254740993 parses to 2^53, whose successor rounds back to
    2^53. *)
Example links_beyond_safe_integers :
  prev_slot (Pagination (VString "9007199254740993") true) =
    LinkButton "/?page=9007199254740991" "Previous Page" /\
  next_slot (Pagination (VString "9007199254740993") true) =
    LinkButton "/?page=9007199254740992" "Next Page".
Proof. split; vm_compute; reflexivity. Qed.

(** C10.  [hasMore] starts out true and is only ever written with false:
    from a state in which it is off every later state of the component
    has it off, whatever the fetches in between returned (a full page of
    20 items included), and a grid rendered there has no Next Page
    link. *)
Theorem hasMore_monotone (c c' : component) :
  steps c c' ->
  hasMore (state c) = false ->
  hasMore initial_state = true /\
  (forall sp : value, hasMore (state (mount sp)) = true) /\
  hasMore (state c') = false /\
  (forall (cards : list card) (pg : pagination_view),
      render (current c') (state c') = ProductGrid cards pg ->
      next_slot pg = Nothing).
Proof.
  intros Hsteps Hoff.
  pose proof (steps_hasMore c c' Hsteps Hoff) as Hoff'.
  split; [reflexivity|]. split; [reflexivity|]. split; [exact Hoff'|].
  intros cards pg. unfold render.
  destruct (loading (state c')); [discriminate|].
  destruct (error_set (error (state c'))); [discriminate|].
  intros [= _ <-]. rewrite Hoff'. reflexivity.
Qed.

Lemma hasMore_monotone_witness :
  let c := answer (serving (sample_products 20))
             (open_page (VString "11")) in
  let c' := answer (serving (sample_products 20))
              (change_page VUndefined c) in
  hasMore initial_state = true /\
  (forall sp : value, hasMore (state (mount sp)) = true) /\
  hasMore (state c') = false /\
  (forall (cards : list card) (pg : pagination_view),
      render (current c') (state c') = ProductGrid cards pg ->
      next_slot pg = Nothing).
Proof.
  apply (hasMore_monotone
           (answer (serving (sample_products 20)) (open_page (VString "11")))
           (answer (serving (sample_products 20))
              (change_page VUndefined
                 (answer (serving (sample_products 20))
                    (open_page (VString "11")))))).
  - eapply steps_step.
    + eapply steps_step.
      * eapply steps_step; [apply steps_refl|].
        apply (step_navigate VUndefined); [reflexivity | discriminate].
      * apply step_effect. reflexivity.
    + apply (step_settle (VNumber (Num 1)) (serving (sample_products 20))).
      simpl. left. reflexivity.
  - reflexivity.
Defined.

(** ** The scenarios of the specification, run from mount *)

(** Twenty items on page 1: a Next Page link to [/?page=2] and no
    Previous Page link. *)
Example full_first_page :
  let c := answer (serving (sample_products 20)) (open_page VUndefined) in
  exists cards : list card,
    render (current c) (state c) =
      ProductGrid cards
        {| prev_slot := Nothing;
           label := "Page 1 of 10";
           next_slot := LinkButton "/?page=2" "Next Page" |} /\
    List.length cards = 20%nat.
Proof. eexists. split; reflexivity. Qed.

(** Five items on page 3: a Previous Page link to [/?page=2] and no Next
    Page link. *)
Example short_third_page :
  let c := answer (serving (sample_products 5)) (open_page (VString "3")) in
  exists cards : list card,
    render (current c) (state c) =
      ProductGrid cards
        {| prev_slot := LinkButton "/?page=2" "Previous Page";
           label := "Page 3 of 10";
           next_slot := Nothing |} /\
    List.length cards = 5%nat.
Proof. eexists. split; reflexivity. Qed.

(** A response with status 500 leads to the error text. *)
Example server_error_page :
  let c := answer failing (open_page (VString "3")) in
  render (current c) (state c) =
    ErrorText "Failed to load products. Please try again later.".
Proof. reflexivity. Qed.

(** The composite [loadProducts] is the effect followed by the settling
    of its own run. *)
Example loadProducts_is_effect_then_settle (sp : value) (w : network) :
  state (answer w (open_page sp)) =
    fst (loadProducts (page_of sp) w initial_state).
Proof. reflexivity. Qed.

(** * Further properties of the page *)

(** ** Strings and numerals *)

Lemma string_of_Z_inj (a b : Z) : string_of_Z a = string_of_Z b -> a = b.
Proof.
  intros H.
  pose proof (string_of_Z_reads_back a) as Ha.
  pose proof (string_of_Z_reads_back b) as Hb.
  rewrite H in Ha. congruence.
Qed.

Lemma string_of_Z_nonempty (z : Z) : string_of_Z z <> "".
Proof.
  unfold string_of_Z. destruct z as [| p | p]; try discriminate.
  cbn [Z.to_int NilZero.string_of_int]. intros H.
  apply (uint_chars_nonempty (Pos.to_uint p) (Unsigned.to_uint_nonnil p)).
  rewrite <- string_of_uint_nonnil by apply Unsigned.to_uint_nonnil.
  rewrite H. reflexivity.
Qed.

(** The numeral of a negative integer starts with the minus sign. *)
Lemma string_of_Z_negative (z : Z) :
  z < 0 -> exists digits : string, string_of_Z z = "-" ++ digits.
Proof.
  destruct z as [| p | p]; try lia. intros _.
  exists (NilZero.string_of_uint (Pos.to_uint p)). reflexivity.
Qed.

Lemma list_ascii_of_append (a b : string) :
  list_ascii_of_string (a ++ b) =
    (list_ascii_of_string a ++ list_ascii_of_string b)%list.
Proof.
  induction a as [| c a IH]; simpl; [reflexivity|]. now rewrite IH.
Qed.

Lemma append_inv_tail (a b t : string) : a ++ t = b ++ t -> a = b.
Proof.
  intros H. apply (f_equal list_ascii_of_string) in H.
  rewrite !list_ascii_of_append in H. apply app_inv_tail in H.
  rewrite <- (string_of_list_ascii_of_string a),
          <- (string_of_list_ascii_of_string b).
  now rewrite H.
Qed.

(** A link parameter is a non-empty string, so [|| 1] keeps it. *)
Lemma page_of_numeral (n : Z) :
  page_of (VString (string_of_Z n)) = VString (string_of_Z n).
Proof.
  unfold page_of, or_else, truthy.
  destruct (String.eqb_spec (string_of_Z n) "") as [H | _];
    [destruct (string_of_Z_nonempty n H) | reflexivity].
Qed.

(** ** The fetcher, beyond its contract *)

(** X1.  [fetchProducts] resolves only on a response that is [ok] and
    whose body parses, and then [hasMore] holds exactly when the body has
    20 items, however long it is; in every other case it rejects, and the
    message of the rejection starts with "Error fetching products: ". *)
Theorem fetchProducts_outcomes (page : value) (w : network) :
  (forall r : result,
      fst (fetchProducts page w) = Fulfilled r ->
      exists res : response,
        backend w (request_of page) = Fulfilled res /\
        ok res = true /\
        json res = Fulfilled (Fetcher.products r) /\
        (Fetcher.hasMore r = true <->
           List.length (Fetcher.products r) = 20%nat)) /\
  (forall m : string,
      fst (fetchProducts page w) = Rejected m ->
      (exists cause : string, m = "Error fetching products: " ++ cause) /\
      ~ (exists (res : response) (data : list product),
            backend w (request_of page) = Fulfilled res /\
            ok res = true /\
            json res = Fulfilled data)).
Proof.
  rewrite fetchProducts_result. unfold fetchProducts_try.
  destruct (backend w (request_of page)) as [res | cause].
  - destruct (ok res) eqn:Hok; cbn [negb].
    + destruct (json res) as [data | cause] eqn:Hjson; cbn [fetchProducts_catch].
      * split.
        -- intros r [= <-]. exists res. cbn [Fetcher.products Fetcher.hasMore].
           repeat split; try assumption; apply Nat.eqb_eq.
        -- intros m H. discriminate H.
      * split.
        -- intros r H. discriminate H.
        -- intros m [= <-]. split; [eexists; reflexivity|].
           intros (res' & data & [= <-] & _ & H). congruence.
    + cbn [fetchProducts_catch]. split.
      * intros r H. discriminate H.
      * intros m [= <-]. split; [eexists; reflexivity|].
        intros (res' & data & [= <-] & H & _). congruence.
  - cbn [fetchProducts_catch]. split.
    + intros r H. discriminate H.
    + intros m [= <-]. split; [eexists; reflexivity|].
      intros (res' & data & H & _). discriminate H.
Qed.

Lemma fetchProducts_outcomes_witness :
  (exists res : response,
      backend (serving (sample_products 25)) (request_of (VString "2"))
        = Fulfilled res /\
      ok res = true /\
      json res = Fulfilled (sample_products 25) /\
      (false = true <-> List.length (sample_products 25) = 20%nat)) /\
  ((exists cause : string,
       "Error fetching products: Unexpected end of JSON input"
         = "Error fetching products: " ++ cause) /\
   ~ (exists (res : response) (data : list product),
         backend garbled (request_of (VString "2")) = Fulfilled res /\
         ok res = true /\
         json res = Fulfilled data)).
Proof.
  split.
  - apply (proj1 (fetchProducts_outcomes (VString "2")
                    (serving (sample_products 25)))
             {| Fetcher.products := sample_products 25;
                Fetcher.hasMore := false |}).
    reflexivity.
  - apply (proj2 (fetchProducts_outcomes (VString "2") garbled)
             "Error fetching products: Unexpected end of JSON input").
    reflexivity.
Defined.

(** X2.  The fetch depends on its argument only through the number the
    argument converts to, an absent argument counting as 1: two arguments
    with the same integer number send the same single request and settle
    alike against the same backend. *)
Theorem fetchProducts_by_number (p1 p2 : value) (n : Z) (w : network) :
  ToNumber (page_or_default p1) = Num n ->
  ToNumber (page_or_default p2) = Num n ->
  request_of p1 = request_of p2 /\
  sent (snd (fetchProducts p1 w)) = (sent w ++ [request_of p2])%list /\
  fst (fetchProducts p1 w) = fst (fetchProducts p2 w).
Proof.
  intros H1 H2.
  assert (Hreq : request_of p1 = request_of p2).
  { unfold request_of, skip_of. rewrite H1, H2. reflexivity. }
  rewrite fetchProducts_sent, !fetchProducts_result, Hreq.
  repeat split.
Qed.

Lemma fetchProducts_by_number_witness :
  request_of VUndefined = request_of (VString " +01 ") /\
  sent (snd (fetchProducts VUndefined failing)) =
    [request_of (VString " +01 ")] /\
  fst (fetchProducts VUndefined failing) =
    fst (fetchProducts (VString " +01 ") failing).
Proof.
  apply (fetchProducts_by_number VUndefined (VString " +01 ") 1 failing);
    reflexivity.
Defined.

(** X3.  The page number has no lower bound: for a page whose number is
    an integer [p <= 0] the request is sent all the same, with the
    negative offset [(p - 1) * 20 <= -20], whose numeral starts with a
    minus sign.  Stated where the offset is a safe integer,
    [-2^53 <= (p - 1) * 20]. *)
Theorem fetchProducts_negative_offset (page : value) (p : Z) (w : network) :
  ToNumber page = Num p ->
  p <= 0 ->
  - 9007199254740992 <= (p - 1) * 20 ->
  (p - 1) * 20 <= -20 /\
  exists digits : string,
    string_of_Z ((p - 1) * 20) = "-" ++ digits /\
    sent (snd (fetchProducts page w)) =
      (sent w ++
         [{| method := "GET";
             url := "https://next-ecommerce-api.vercel.app/products?skip=-"
                      ++ digits ++ "&limit=20" |}])%list.
Proof.
  intros Hp Hle Hsafe. split; [lia|].
  assert (Hrange : - 9007199254740992 <= (p - 1) * 20 <= 9007199254740992)
    by lia.
  destruct (string_of_Z_negative ((p - 1) * 20)) as [digits Hd]; [lia|].
  exists digits. split; [exact Hd|].
  rewrite fetchProducts_sent. unfold request_of.
  rewrite (skip_of_number page p Hp Hrange).
  unfold products_url. rewrite (number_to_string_safe _ Hrange), Hd.
  reflexivity.
Qed.

Lemma fetchProducts_negative_offset_witness :
  (0 - 1) * 20 <= -20 /\
  exists digits : string,
    string_of_Z ((0 - 1) * 20) = "-" ++ digits /\
    sent (snd (fetchProducts (VString "0") offline)) =
      [{| method := "GET";
          url := "https://next-ecommerce-api.vercel.app/products?skip=-"
                   ++ digits ++ "&limit=20" |}].
Proof.
  apply (fetchProducts_negative_offset (VString "0") 0 offline);
    [reflexivity | lia | lia].
Defined.

(** X4.  Pages tile the catalogue: among the pages whose offsets are
    safe integers, the offset of the page after [a] is the offset of
    page [a] plus the page size 20, and two pages that send the same
    request have the same number. *)
Theorem pages_tile_catalogue (p1 p2 : value) (a b : Z) :
  ToNumber p1 = Num a ->
  ToNumber p2 = Num b ->
  - 9007199254740992 <= (a - 1) * 20 <= 9007199254740992 ->
  - 9007199254740992 <= (b - 1) * 20 <= 9007199254740992 ->
  (b = a + 1 ->
   skip_of (page_or_default p2) =
     add (skip_of (page_or_default p1)) (Num 20)) /\
  (request_of p1 = request_of p2 -> a = b).
Proof.
  intros Ha Hb Hsa Hsb.
  rewrite (skip_of_number p1 a Ha Hsa).
  unfold request_of.
  rewrite (skip_of_number p1 a Ha Hsa), (skip_of_number p2 b Hb Hsb).
  split.
  - intros Hnext. cbn [add]. rewrite round_Z_safe by lia. f_equal. lia.
  - unfold products_url.
    rewrite (number_to_string_safe _ Hsa), (number_to_string_safe _ Hsb).
    intros [= H].
    apply append_inv_tail in H. apply string_of_Z_inj in H. lia.
Qed.

Lemma pages_tile_catalogue_witness :
  (4 = 3 + 1 ->
   skip_of (page_or_default (VString "4")) =
     add (skip_of (page_or_default (VString "3"))) (Num 20)) /\
  (request_of (VString "3") = request_of (VString "4") -> 3 = 4).
Proof.
  apply (pages_tile_catalogue (VString "3") (VString "4") 3 4);
    [reflexivity | reflexivity | lia | lia].
Defined.

(** Beyond the safe integers two pages can share a request: the
    parameters 9007199254740992 and 9007199254740993 convert to the same
    double. *)
Example pages_sharing_a_request :
  request_of (VString "9007199254740992") =
  request_of (VString "9007199254740993").
Proof. vm_compute. reflexivity. Qed.

(** ** The page parameter *)

(** X5.  [searchParams.page || 1] never yields a falsy value, so the
    default of [fetchProducts] is never used by the page; an absent or
    empty parameter (any falsy one) gives page 1, whose request has
    offset 0, and any other parameter is passed on as it is. *)
Theorem page_of_default (sp : value) :
  truthy (page_of sp) = true /\
  page_or_default (page_of sp) = page_of sp /\
  (truthy sp = false ->
   page_of sp = VNumber (Num 1) /\
   url (request_of (page_of sp)) =
     "https://next-ecommerce-api.vercel.app/products?skip=0&limit=20") /\
  (truthy sp = true -> page_of sp = sp).
Proof.
  unfold page_of, or_else.
  destruct (truthy sp) eqn:Ht.
  - repeat split; try assumption; try discriminate.
    destruct sp; [discriminate Ht | reflexivity | reflexivity].
  - repeat split; discriminate.
Qed.

Lemma page_of_default_witness :
  (page_of (VString "") = VNumber (Num 1) /\
   url (request_of (page_of (VString ""))) =
     "https://next-ecommerce-api.vercel.app/products?skip=0&limit=20") /\
  page_of (VString "4") = VString "4".
Proof.
  split.
  - apply (proj1 (proj2 (proj2 (page_of_default (VString ""))))).
    reflexivity.
  - apply (proj2 (proj2 (proj2 (page_of_default (VString "4"))))).
    reflexivity.
Defined.

(** ** The controller over the life of the component *)

Lemma steps_error_kept (c c' : component) :
  steps c c' ->
  error (state c) = Some error_message ->
  error (state c') = Some error_message.
Proof.
  induction 1 as [c | c1 c2 c3 H12 IH H23]; intros Herr; [exact Herr|].
  destruct (step_error _ _ H23) as [Hsame | Hmsg].
  - rewrite Hsame. apply IH, Herr.
  - exact Hmsg.
Qed.

(** X6.  An error is never cleared: once the error cell holds the
    message, it holds it in every later state of the component, whatever
    pages are visited and whatever their fetches return, and the product
    grid is never rendered again. *)
Theorem error_is_sticky (c c' : component) :
  steps c c' ->
  error (state c) = Some error_message ->
  error (state c') = Some error_message /\
  (forall (cards : list card) (pg : pagination_view),
      render (current c') (state c') <> ProductGrid cards pg).
Proof.
  intros Hsteps Herr.
  pose proof (steps_error_kept c c' Hsteps Herr) as Herr'.
  split; [exact Herr'|].
  intros cards pg. unfold render. rewrite Herr'.
  destruct (loading (state c')); discriminate.
Qed.

Lemma error_is_sticky_witness :
  let c := answer offline (open_page VUndefined) in
  let c' := answer (serving (sample_products 20))
              (change_page (VString "2") c) in
  error (state c') = Some error_message /\
  (forall (cards : list card) (pg : pagination_view),
      render (current c') (state c') <> ProductGrid cards pg).
Proof.
  apply (error_is_sticky
           (answer offline (open_page VUndefined))
           (answer (serving (sample_products 20))
              (change_page (VString "2")
                 (answer offline (open_page VUndefined))))).
  - eapply steps_step.
    + eapply steps_step.
      * eapply steps_step; [apply steps_refl|].
        apply (step_navigate (VString "2")); [reflexivity | discriminate].
      * apply step_effect. reflexivity.
    + apply (step_settle (VString "2") (serving (sample_products 20))).
      simpl. left. reflexivity.
  - reflexivity.
Defined.

(** X7.  The placeholder is only shown while something is outstanding:
    in a reachable state with [loading] true, the effect has still to run
    or a run of [loadProducts] waits for its fetch. *)
Theorem loading_has_cause (c : component) :
  reachable c ->
  loading (state c) = true ->
  effect_due c = true \/ pending c <> [].
Proof.
  intros [sp Hsteps].
  remember (mount sp) as c0 eqn:E.
  induction Hsteps as [c | c1 c2 c3 H12 IH H23]; intros Hl.
  - subst c. left. reflexivity.
  - destruct H23 as [sp' c2 Hdue Hneq | c2 Hdue | p w c2 Hin].
    + left. rewrite navigate_changed by assumption. reflexivity.
    + right. cbn [run_effect pending]. intros H.
      apply app_eq_nil in H. destruct H as [_ H]. discriminate H.
    + unfold settle in Hl. cbn [state] in Hl.
      rewrite resume_loading in Hl. discriminate Hl.
Qed.

Lemma loading_has_cause_witness :
  effect_due (change_page (VString "2")
                (answer failing (open_page VUndefined))) = true \/
  pending (change_page (VString "2")
             (answer failing (open_page VUndefined))) <> [].
Proof.
  apply (loading_has_cause
           (change_page (VString "2")
              (answer failing (open_page VUndefined)))).
  - apply reachable_change_page; [|reflexivity|discriminate].
    apply reachable_answer; [apply reachable_open_page|].
    simpl. left. reflexivity.
  - reflexivity.
Defined.

Lemma remove_first_head (p : value) (l : list value) :
  remove_first p (p :: l) = l.
Proof.
  cbn [remove_first].
  destruct (value_eq_dec p p); [reflexivity | contradiction].
Qed.

(** X8.  A late answer still wins: when the page changes from [a] to [b]
    before the fetch for [a] has settled, and that fetch then succeeds,
    the products of page [a] are stored and shown, under the pagination
    of page [b], and [loading] is turned off although the run for [b]
    still waits for its fetch. *)
Theorem stale_response_shown (a b : value) (w : network)
    (res : response) (data : list product) :
  page_of b <> page_of a ->
  backend w (request_of (page_of a)) = Fulfilled res ->
  ok res = true ->
  json res = Fulfilled data ->
  reachable (settle (page_of a) w (change_page b (open_page a))) /\
  current (settle (page_of a) w (change_page b (open_page a))) = page_of b /\
  pending (settle (page_of a) w (change_page b (open_page a))) = [page_of b] /\
  loading (state (settle (page_of a) w (change_page b (open_page a)))) = false /\
  render (page_of b)
         (state (settle (page_of a) w (change_page b (open_page a)))) =
    ProductGrid
      (map product_card data)
      (Pagination (page_of b)
         (hasMore (state (settle (page_of a) w
                            (change_page b (open_page a)))))).
Proof.
  intros Hneq Hres Hok Hjson.
  assert (Hc : change_page b (open_page a) =
               {| current := page_of b;
                  state := loadProducts_begin (loadProducts_begin initial_state);
                  pending := [page_of a; page_of b];
                  effect_due := false |}).
  { unfold change_page. rewrite navigate_changed by exact Hneq. reflexivity. }
  split; [|split; [|split; [|split]]].
  - eapply reachable_step.
    + apply reachable_change_page;
        [apply reachable_open_page | reflexivity | exact Hneq].
    + apply step_settle. rewrite Hc. left. reflexivity.
  - rewrite Hc. reflexivity.
  - rewrite Hc. unfold settle. cbn [pending]. apply remove_first_head.
  - unfold settle. cbn [state]. apply resume_loading.
  - unfold settle. cbn [state].
    rewrite (fetchProducts_fulfilled _ w res data Hres Hok Hjson).
    rewrite render_products.
    + rewrite resume_fulfilled_products. reflexivity.
    + apply resume_loading.
    + rewrite resume_fulfilled_error, Hc. reflexivity.
Qed.

Lemma stale_response_shown_witness :
  let c := settle (page_of (VString "3")) (serving (sample_products 7))
             (change_page (VString "4") (open_page (VString "3"))) in
  reachable c /\
  current c = page_of (VString "4") /\
  pending c = [page_of (VString "4")] /\
  loading (state c) = false /\
  render (page_of (VString "4")) (state c) =
    ProductGrid
      (map product_card (sample_products 7))
      (Pagination (page_of (VString "4")) (hasMore (state c))).
Proof.
  apply (stale_response_shown (VString "3") (VString "4")
           (serving (sample_products 7))
           {| status := 200; statusText := "OK";
              json := Fulfilled (sample_products 7) |}
           (sample_products 7));
    [discriminate | reflexivity | reflexivity | reflexivity].
Defined.

(** X9.  The products held are only ever replaced as a whole by what a
    fetch resolved to: a step leaves [products] as it was, or it is the
    settling of a waiting run whose fetch was fulfilled, and then
    [products] is exactly the fetched sequence.  Navigation, the start of
    a load and a failed fetch do not touch it. *)
Theorem products_only_replaced (c c' : component) :
  step c c' ->
  products (state c') = products (state c) \/
  exists (p : value) (w : network) (r : result),
    In p (pending c) /\
    fst (fetchProducts p w) = Fulfilled r /\
    c' = settle p w c /\
    products (state c') = Fetcher.products r.
Proof.
  intros [sp c0 Hdue Hneq | c0 Hdue | p w c0 Hin].
  - left. rewrite navigate_changed by assumption. reflexivity.
  - left. reflexivity.
  - destruct (fst (fetchProducts p w)) as [r | m] eqn:Hfetch.
    + right. exists p, w, r. repeat split; try assumption.
      unfold settle. cbn [state]. rewrite Hfetch.
      apply resume_fulfilled_products.
    + left. unfold settle. cbn [state]. rewrite Hfetch. reflexivity.
Qed.

Lemma products_only_replaced_witness :
  let c := change_page (VString "2")
             (answer (serving (sample_products 20)) (open_page VUndefined)) in
  products (state (settle (VString "2") garbled c)) = products (state c) \/
  exists (p : value) (w : network) (r : result),
    In p (pending c) /\
    fst (fetchProducts p w) = Fulfilled r /\
    settle (VString "2") garbled c = settle p w c /\
    products (state (settle (VString "2") garbled c)) = Fetcher.products r.
Proof.
  apply (products_only_replaced
           (change_page (VString "2")
              (answer (serving (sample_products 20)) (open_page VUndefined)))
           (settle (VString "2") garbled
              (change_page (VString "2")
                 (answer (serving (sample_products 20))
                    (open_page VUndefined))))).
  apply step_settle. simpl. left. reflexivity.
Defined.

(** ** Pagination and the grid *)

(** The links for a current page that parses to a safe integer [n]. *)
Lemma Pagination_of_number (currentPage : value) (more : bool) (n : Z) :
  parseInt currentPage = Num n ->
  - 9007199254740992 < n < 9007199254740992 ->
  Pagination currentPage more =
    {| prev_slot :=
         if (1 <? n)%Z
         then LinkButton ("/?page=" ++ string_of_Z (n - 1)) "Previous Page"
         else Nothing;
       label := "Page " ++ child_text currentPage ++ " of 10";
       next_slot :=
         if more
         then LinkButton ("/?page=" ++ string_of_Z (n + 1)) "Next Page"
         else Nothing |}.
Proof.
  intros Hn Hsafe. unfold Pagination. rewrite Hn. cbn [gt sub add].
  rewrite (round_Z_safe (n - 1)), (round_Z_safe (n + 1)) by lia.
  rewrite (number_to_string_safe (n + 1)) by lia.
  destruct (Z.ltb_spec 1 n) as [Hgt | Hle]; [|reflexivity].
  cbn [truthy]. rewrite (number_to_string_safe (n - 1)) by lia.
  destruct (Z.eqb_spec (n - 1) 0) as [H0 | _]; [lia | reflexivity].
Qed.

(** X10.  For a current page that does not parse to a number there is no
    Previous Page link, and the Next Page link, rendered when [hasMore]
    is true, points to [/?page=NaN]; the label shows the page as given. *)
Theorem Pagination_unparsable (currentPage : value) (more : bool) :
  parseInt currentPage = NaN ->
  prev_slot (Pagination currentPage more) = Nothing /\
  next_slot (Pagination currentPage more) =
    (if more then LinkButton "/?page=NaN" "Next Page" else Nothing) /\
  label (Pagination currentPage more) =
    "Page " ++ child_text currentPage ++ " of 10".
Proof.
  intros Hn. unfold Pagination. rewrite Hn. repeat split.
Qed.

Lemma Pagination_unparsable_witness :
  prev_slot (Pagination (VString "last") true) = Nothing /\
  next_slot (Pagination (VString "last") true) =
    LinkButton "/?page=NaN" "Next Page" /\
  label (Pagination (VString "last") true) = "Page last of 10".
Proof.
  apply (Pagination_unparsable (VString "last") true). reflexivity.
Defined.

(** X11.  The links lead back and forth, among the safe integers: on a
    page [n] with [1 <= n] and [n + 1 < 2^53] the Next Page link carries
    the numeral of [n + 1], and the page opened with that parameter
    carries a Previous Page link back to [n]; on a page [n > 1] the page
    opened by the Previous Page link carries, when [hasMore] is true, a
    Next Page link back to [n]. *)
Theorem links_round_trip (n : Z) (more : bool) :
  1 <= n ->
  n + 1 < 9007199254740992 ->
  next_slot (Pagination (page_of (VString (string_of_Z n))) true) =
    LinkButton ("/?page=" ++ string_of_Z (n + 1)) "Next Page" /\
  prev_slot (Pagination (page_of (VString (string_of_Z (n + 1)))) more) =
    LinkButton ("/?page=" ++ string_of_Z n) "Previous Page" /\
  (1 < n ->
   prev_slot (Pagination (page_of (VString (string_of_Z n))) more) =
     LinkButton ("/?page=" ++ string_of_Z (n - 1)) "Previous Page" /\
   next_slot (Pagination (page_of (VString (string_of_Z (n - 1)))) true) =
     LinkButton ("/?page=" ++ string_of_Z n) "Next Page").
Proof.
  intros Hn Hsafe.
  assert (Hparse : forall k,
             - 9007199254740992 <= k <= 9007199254740992 ->
             parseInt (VString (string_of_Z k)) = Num k)
    by (intros k Hk; apply parseInt_numeral, Hk).
  rewrite !page_of_numeral.
  rewrite (Pagination_of_number _ true n (Hparse n ltac:(lia)) ltac:(lia)).
  rewrite (Pagination_of_number _ more (n + 1)
             (Hparse (n + 1) ltac:(lia)) ltac:(lia)).
  rewrite (Pagination_of_number _ more n (Hparse n ltac:(lia)) ltac:(lia)).
  rewrite (Pagination_of_number _ true (n - 1)
             (Hparse (n - 1) ltac:(lia)) ltac:(lia)).
  cbn [prev_slot next_slot].
  destruct (Z.ltb_spec 1 (n + 1)) as [_ | H]; [|lia].
  replace (n + 1 - 1) with n by lia.
  split; [reflexivity|]. split; [reflexivity|].
  intros Hgt. destruct (Z.ltb_spec 1 n) as [_ | H]; [|lia].
  replace (n - 1 + 1) with n by lia.
  split; reflexivity.
Qed.

Lemma links_round_trip_witness :
  next_slot (Pagination (page_of (VString (string_of_Z 2))) true) =
    LinkButton ("/?page=" ++ string_of_Z (2 + 1)) "Next Page" /\
  prev_slot (Pagination (page_of (VString (string_of_Z (2 + 1)))) false) =
    LinkButton ("/?page=" ++ string_of_Z 2) "Previous Page" /\
  (1 < 2 ->
   prev_slot (Pagination (page_of (VString (string_of_Z 2))) false) =
     LinkButton ("/?page=" ++ string_of_Z (2 - 1)) "Previous Page" /\
   next_slot (Pagination (page_of (VString (string_of_Z (2 - 1)))) true) =
     LinkButton ("/?page=" ++ string_of_Z 2) "Next Page").
Proof.
  apply (links_round_trip 2 false); lia.
Defined.




(** X13.  A first load, from mount to a good answer.  When the page is
    opened with the numeral of a safe integer [n] ([-2^53 < n < 2^53])
    as its parameter and the fetch is answered by an [ok] response with
    the products [data], the grid of [data] is rendered with the label
    "Page {n} of 10", a Previous Page link to [n - 1] exactly when
    [n > 1], and a Next Page link to [n + 1] exactly when [n <= 10] and
    [data] has 20 items.  So page 10 with a full answer still links to
    page 11, and no page beyond 10 links further. *)
Theorem first_load (n : Z) (w : network) (res : response)
    (data : list product) :
  - 9007199254740992 < n < 9007199254740992 ->
  backend w (request_of (VString (string_of_Z n))) = Fulfilled res ->
  ok res = true ->
  json res = Fulfilled data ->
  reachable (answer w (open_page (VString (string_of_Z n)))) /\
  render (current (answer w (open_page (VString (string_of_Z n)))))
         (state (answer w (open_page (VString (string_of_Z n))))) =
    ProductGrid
      (map product_card data)
      {| prev_slot :=
           if (1 <? n)%Z
           then LinkButton ("/?page=" ++ string_of_Z (n - 1)) "Previous Page"
           else Nothing;
         label := "Page " ++ string_of_Z n ++ " of 10";
         next_slot :=
           if (n <=? 10)%Z && Nat.eqb (List.length data) 20
           then LinkButton ("/?page=" ++ string_of_Z (n + 1)) "Next Page"
           else Nothing |}.
Proof.
  intros Hsafe Hres Hok Hjson.
  assert (Hpage : current (open_page (VString (string_of_Z n)))
                  = VString (string_of_Z n))
    by apply page_of_numeral.
  split.
  - apply reachable_answer; [apply reachable_open_page|].
    cbn [open_page run_effect pending mount current app In].
    left. reflexivity.
  - unfold answer. rewrite Hpage. unfold settle. cbn [current state].
    rewrite Hpage.
    rewrite (fetchProducts_fulfilled _ w res data Hres Hok Hjson).
    rewrite render_products;
      [| apply resume_loading | rewrite resume_fulfilled_error; reflexivity].
    rewrite resume_fulfilled_products, resume_fulfilled_hasMore.
    cbn [Fetcher.products Fetcher.hasMore ToNumber].
    rewrite StringToNumber_numeral by lia. cbn [gt].
    rewrite (Pagination_of_number (VString (string_of_Z n)) _ n
               (parseInt_numeral n ltac:(lia)) Hsafe).
    cbn [child_text open_page run_effect state mount hasMore
         loadProducts_begin setLoading initial_state].
    f_equal. f_equal.
    rewrite Z.leb_antisym.
    destruct (10 <? n)%Z, (Nat.eqb (List.length data) 20); reflexivity.
Qed.

Lemma first_load_witness :
  reachable (answer (serving (sample_products 20))
               (open_page (VString (string_of_Z 10)))) /\
  render (current (answer (serving (sample_products 20))
                     (open_page (VString (string_of_Z 10)))))
         (state (answer (serving (sample_products 20))
                   (open_page (VString (string_of_Z 10))))) =
    ProductGrid
      (map product_card (sample_products 20))
      {| prev_slot :=
           if (1 <? 10)%Z
           then LinkButton ("/?page=" ++ string_of_Z (10 - 1)) "Previous Page"
           else Nothing;
         label := "Page " ++ string_of_Z 10 ++ " of 10";
         next_slot :=
           if (10 <=? 10)%Z && Nat.eqb (List.length (sample_products 20)) 20
           then LinkButton ("/?page=" ++ string_of_Z (10 + 1)) "Next Page"
           else Nothing |}.
Proof.
  apply (first_load 10 (serving (sample_products 20))
           {| status := 200; statusText := "OK";
              json := Fulfilled (sample_products 20) |}
           (sample_products 20));
    [lia | reflexivity | reflexivity | reflexivity].
Defined.

(** X14.  [hasMore] is written on the success path only: a step leaves
    it as it was unless it is the settling of a waiting run whose fetch
    was fulfilled, and then it can only have become false.  Navigation,
    the start of a load and a failed fetch never change it. *)
Theorem hasMore_changes_on_success (c c' : component) :
  step c c' ->
  hasMore (state c') = hasMore (state c) \/
  (hasMore (state c') = false /\
   exists (p : value) (w : network) (r : result),
     In p (pending c) /\
     fst (fetchProducts p w) = Fulfilled r /\
     c' = settle p w c).
Proof.
  intros [sp c0 Hdue Hneq | c0 Hdue | p w c0 Hin].
  - left. rewrite navigate_changed by assumption. reflexivity.
  - left. reflexivity.
  - destruct (fst (fetchProducts p w)) as [r | m] eqn:Hfetch.
    + destruct (hasMore (state (settle p w c0))) eqn:Hafter.
      * left. unfold settle in Hafter. cbn [state] in Hafter.
        rewrite Hfetch, resume_fulfilled_hasMore in Hafter.
        destruct (gt (ToNumber p) (Num 10) || negb (Fetcher.hasMore r));
          [discriminate Hafter | symmetry; exact Hafter].
      * right. split; [reflexivity|].
        exists p, w, r. repeat split; assumption.
    + left. unfold settle. cbn [state]. rewrite Hfetch. reflexivity.
Qed.

Lemma hasMore_changes_on_success_witness :
  let c := open_page (VString "2") in
  hasMore (state (settle (VString "2") (serving (sample_products 5)) c)) =
    hasMore (state c) \/
  (hasMore (state (settle (VString "2") (serving (sample_products 5)) c)) =
     false /\
   exists (p : value) (w : network) (r : result),
     In p (pending c) /\
     fst (fetchProducts p w) = Fulfilled r /\
     settle (VString "2") (serving (sample_products 5)) c = settle p w c).
Proof.
  apply (hasMore_changes_on_success
           (open_page (VString "2"))
           (settle (VString "2") (serving (sample_products 5))
              (open_page (VString "2")))).
  apply step_settle. simpl. left. reflexivity.
Defined.
